(** * Exchange bundle ingestion: a shallow embedding of
      [catalyst/exchange/exchange_bundle.py]

    The development follows the Python class [ExchangeBundle]:
    range resolution ([get_adj_dates]), the lazily bound reader, the
    existence check ([check_data_exists]) and the ingestion loop
    ([ingest]): chunk planning, forward-fill reconciliation and the write.

    Conventions.
    - A [pd.Timestamp] is its integer value, a number of nanoseconds, as a
      [Z]; pandas raises on values outside 64 bits, it never wraps, so no
      wrap-around is modelled.
    - Python floats that hold durations ([total_seconds() / 60]) are exact
      rationals [Q]; [datetime.timedelta] keeps whole microseconds and
      rounds half to even, which is written out in [timedelta_minutes].
      The rounding of the doubles themselves is not modelled: it can
      differ from the exact value only at a tie of the microsecond
      rounding or for a range of several decades.
    - Collaborators that live outside this file of the repository (the
      store reader and writer, the market-data client) are the fields of
      the class [Collaborators], acting on an abstract [World]. *)

From Stdlib Require Import ZArith QArith Qround Lia List Bool Sorted Permutation
  Ascii.
From stdpp Require Import gmap strings list fin_maps.

Import ListNotations.
Local Open Scope Z_scope.

(** ** Time *)

Module Clock.

(** A timestamp is its nanosecond count. *)
Abbreviation Timestamp := Z (only parsing).

Definition microsecond : Z := 1000.
Definition minute : Z := 60000000000.
Definition day : Z := 1440 * minute.

(** [ts.floor('1 min')] *)
Definition floor_1min (t : Timestamp) : Timestamp := t / minute * minute.

(** Rounding to the nearest integer, ties to the even one: the rounding
    of [datetime.timedelta] when it is given a float. *)
Definition round_half_even (x : Q) : Z :=
  let f := Qfloor x in
  match Qcompare (x - inject_Z f) (1 # 2) with
  | Lt => f
  | Gt => f + 1
  | Eq => if Z.even f then f else f + 1
  end.

(** [timedelta(minutes=m)] as nanoseconds: [m] minutes, kept in whole
    microseconds. *)
Definition timedelta_minutes (m : Q) : Z :=
  microsecond * round_half_even (m * inject_Z 60000000).

(** [delta.total_seconds()] of a pandas [Timedelta] of [d] nanoseconds. *)
Definition total_seconds (d : Z) : Q := Qmake d 1000000000.

End Clock.
Export Clock.

(** ** Exceptions and results *)

Inductive exn : Type :=
| ValueError (msg : string)
| TypeError (msg : string)
| IOError
| BcolzMinuteOverlappingData
| OtherError (msg : string).

(** What a call does: it returns or it raises. The loops of [ingest] that
    Python writes as [while] take fuel here and give [None] when the fuel
    is used up before the loop condition fails. *)
Inductive Result (A : Type) : Type :=
| Returns (a : A)
| Raises (e : exn).
Arguments Returns {A} a.
Arguments Raises {A} e.

(** ** Data model *)

Record Asset : Type := mkAsset {
  sid : Z;
  symbol : string;
  start_date : Timestamp
}.

Record Candle : Type := mkCandle {
  last_traded : Timestamp;
  open : Q;
  high : Q;
  low : Q;
  close : Q;
  volume : Q
}.

(** [dict(end=..., bar_count=...)]; [bar_count] is an int in the
    multi-chunk branch and a float in the single-chunk branch. *)
Record Chunk : Type := mkChunk {
  chunk_end_ : Timestamp;
  bar_count : Q
}.

(** ** Range resolution: [get_adj_dates] *)

Module RangeResolver.

(** The loop over [self.assets] that keeps the smallest [start_date];
    [None] is Python's [None]. *)
Definition earliest_step (earliest_trade : option Timestamp) (asset : Asset)
  : option Timestamp :=
  match earliest_trade with
  | None => Some (start_date asset)
  | Some e => if start_date asset <? e then Some (start_date asset) else Some e
  end.

Definition earliest_trade_of (assets : list Asset) : option Timestamp :=
  fold_left earliest_step assets None.

Definition invalid_range : exn :=
  ValueError "start date cannot be after end date".

(** [now] is [pd.Timestamp.utcnow()]. With no asset [earliest_trade]
    stays [None] and [earliest_trade > start] compares [None] with a
    Timestamp, which raises [TypeError]. *)
Definition get_adj_dates (now : Timestamp) (assets : list Asset)
    (start end_ : Timestamp) : Result (Timestamp * Timestamp) :=
  let end_ := if now <? end_ then now else end_ in
  match earliest_trade_of assets with
  | None => Raises (TypeError "Cannot compare type NoneType with type Timestamp")
  | Some earliest_trade =>
      let start := if start <? earliest_trade then earliest_trade else start in
      if end_ <=? start then Raises invalid_range
      else Returns (start, end_)
  end.

(** The words of the specification: the smallest start date of the set. *)
Definition is_earliest (e : Timestamp) (assets : list Asset) : Prop :=
  In e (map start_date assets) /\ Forall (fun a => e <= start_date a) assets.

End RangeResolver.
Export RangeResolver.

(** ** The collaborators of the bundle

    None of these is defined in [exchange_bundle.py]: the bcolz reader and
    writer and [fetch_candles_chunk] are imported. They act on a [World]
    (the store on disk, the remote exchange). *)

Inductive Reading : Type :=
| Num (v : Q)
| NaN.

(** [np.isnan] *)
Definition isnan (r : Reading) : bool :=
  match r with
  | NaN => true
  | Num _ => false
  end.

(** [pd.DataFrame(all_candles, index=all_dates)]: rows in order, each with
    its index. *)
Definition DataFrame : Type := list (Timestamp * Candle).

Class Collaborators : Type := {
  World : Type;
  Reader : Type;
  Writer : Type;
  (** [BcolzMinuteBarReader(input_dir)] / [BcolzDailyBarReader(input_dir)]
      for the frequency given; [None] is the [IOError] the property
      catches. *)
  open_reader : string -> World -> option Reader;
  (** [reader.get_value(sid, dt, 'close')] *)
  get_value : Reader -> World -> Z -> Timestamp -> Result Reading;
  (** the writer for the frequency, [start] and [end]: opened on a
      non-empty directory, created otherwise. *)
  open_writer : string -> Timestamp -> Timestamp -> World -> Result Writer * World;
  (** [writer.write(data=data, show_progress=False,
      invalid_data_behavior='raise')] *)
  writer_write : Writer -> list (Z * DataFrame) -> World -> Result unit * World;
  (** [fetch_candles_chunk(exchange, assets, data_frequency, end_dt,
      bar_count)]: a dict from asset to its candles, in iteration order. *)
  fetch_candles_chunk :
    list Asset -> string -> Timestamp -> Q -> World ->
    Result (list (Asset * list Candle)) * World
}.

Inductive Level : Type := Debug | Info | Warn.

Inductive Event : Type :=
| Log (level : Level) (template : string)
| FetchCall (assets : list Asset) (frequency : string) (end_dt : Timestamp) (bars : Q)
| WriteCall (data : list (Z * DataFrame)).

Section Bundle.

Context `{C : Collaborators}.

Record ExchangeBundle : Type := mkBundle {
  num_candles_limit : Z;
  data_frequency : string;
  assets : list Asset;
  start : Timestamp;
  end_ : Timestamp;
  _reader : option Reader;
  _writer : option Writer
}.

(** The object, the world it acts on, and what it has done so far. *)
Record Run : Type := mkRun {
  self : ExchangeBundle;
  world : World;
  trace : list Event
}.

Definition emit (e : Event) (st : Run) : Run :=
  mkRun (self st) (world st) (trace st ++ [e]).

Definition set_world (w : World) (st : Run) : Run :=
  mkRun (self st) w (trace st).

Definition set_reader (r : Reader) (st : Run) : Run :=
  let b := self st in
  mkRun (mkBundle (num_candles_limit b) (data_frequency b) (assets b)
           (start b) (end_ b) (Some r) (_writer b))
        (world st) (trace st).

Definition set_writer (w : Writer) (st : Run) : Run :=
  let b := self st in
  mkRun (mkBundle (num_candles_limit b) (data_frequency b) (assets b)
           (start b) (end_ b) (_reader b) (Some w))
        (world st) (trace st).

Definition supported (frequency : string) : bool :=
  String.eqb frequency "minute" || String.eqb frequency "daily".

(** The [reader] property. *)
Definition reader (st : Run) : Result (option Reader) * Run :=
  match _reader (self st) with
  | Some r => (Returns (Some r), st)
  | None =>
      let frequency := data_frequency (self st) in
      if supported frequency then
        match open_reader frequency (world st) with
        | Some r => (Returns (Some r), set_reader r st)
        | None => (Returns None, emit (Log Debug "no reader data found in {}") st)
        end
      else (Raises (ValueError "invalid frequency {}"), st)
  end.

(** The [writer] property. *)
Definition writer (st : Run) : Result Writer * Run :=
  match _writer (self st) with
  | Some w => (Returns w, st)
  | None =>
      let frequency := data_frequency (self st) in
      if supported frequency then
        match open_writer frequency (start (self st)) (end_ (self st)) (world st) with
        | (Returns w, wd) => (Returns w, set_writer w (set_world wd st))
        | (Raises e, wd) => (Raises e, set_world wd st)
        end
      else (Raises (ValueError "invalid frequency {}"), st)
  end.

(** *** [check_data_exists] *)

(** The body of the [try] for one asset, started with [has_data = True]:
    the value of [has_data] after it. A raise is caught by
    [except Exception] and gives [False]. *)
Definition endpoints_present (r : Reader) (w : World) (asset : Asset)
    (start end_ : Timestamp) : bool :=
  match get_value r w (sid asset) start with
  | Raises _ => false
  | Returns start_close =>
      if isnan start_close then false
      else
        match get_value r w (sid asset) end_ with
        | Raises _ => false
        | Returns end_close => negb (isnan end_close)
        end
  end.

Fixpoint check_loop (assets : list Asset) (start end_ : Timestamp)
    (has_data : bool) (st : Run) : Result bool * Run :=
  match assets with
  | [] => (Returns has_data, st)
  | asset :: rest =>
      if has_data then
        match reader st with
        | (Returns (Some r), st') =>
            check_loop rest start end_
              (endpoints_present r (world st') asset start end_) st'
        | (Returns None, st') => check_loop rest start end_ false st'
        | (Raises e, st') => (Raises e, st')
        end
      else check_loop rest start end_ false st
  end.

Definition check_data_exists (assets : list Asset) (start end_ : Timestamp)
    (st : Run) : Result bool * Run :=
  check_loop assets start end_ true st.

End Bundle.

(** ** Chunk planning: the first half of [ingest] *)

Module Planner.

(** [delta_periods] and the [frequency] token for the fetch. *)
Definition delta_periods (data_frequency : string) (delta : Z)
  : Result (Q * string) :=
  if String.eqb data_frequency "minute" then
    Returns ((total_seconds delta / 60)%Q, "1m"%string)
  else if String.eqb data_frequency "daily" then
    Returns ((total_seconds delta / 60 / 60 / 24)%Q, "1d"%string)
  else Raises (ValueError "frequency not supported").

(** [while last_chunk_date > self.start + timedelta(minutes=bar_count)] *)
Fixpoint chunk_loop (fuel : nat) (start : Timestamp) (bar_count : Z)
    (last_chunk_date : Timestamp) (chunks : list Chunk) : option (list Chunk) :=
  match fuel with
  | O => None
  | S fuel' =>
      if start + timedelta_minutes (inject_Z bar_count) <? last_chunk_date then
        let chunk := mkChunk last_chunk_date (inject_Z bar_count) in
        chunk_loop fuel' start bar_count
          (last_chunk_date - timedelta_minutes (inject_Z (bar_count + 1)))
          (chunks ++ [chunk])
      else Some chunks
  end.

(** The [if delta_periods > self.exchange.num_candles_limit] statement:
    the chunks in the order in which they are then run. *)
Definition plan_chunks (fuel : nat) (num_candles_limit : Z)
    (start end_ : Timestamp) (periods : Q) : option (list Chunk) :=
  if negb (Qle_bool periods (inject_Z num_candles_limit)) then
    let bar_count := num_candles_limit in
    match chunk_loop fuel start bar_count (floor_1min end_) [] with
    | Some chunks => Some (rev chunks)
    | None => None
    end
  else Some [mkChunk end_ periods].

(** Planning as [ingest] does it, from [delta = self.end - self.start] to
    [chunks]; the token is the [frequency] handed to the fetch. *)
Definition planned (fuel : nat) (data_frequency : string)
    (num_candles_limit : Z) (start end_ : Timestamp)
  : option (Result (list Chunk * string)) :=
  match delta_periods data_frequency (end_ - start) with
  | Raises e => Some (Raises e)
  | Returns (periods, frequency) =>
      match plan_chunks fuel num_candles_limit start end_ periods with
      | Some chunks => Some (Returns (chunks, frequency))
      | None => None
      end
  end.

(** [chunk_start = chunk_end - timedelta(minutes=chunk['bar_count'])] *)
Definition chunk_start_of (chunk : Chunk) : Timestamp :=
  chunk_end_ chunk - timedelta_minutes (bar_count chunk).



(** The [k]-th chunk appended by the loop started at [last_chunk_date]. *)
Definition nth_chunk (last_chunk_date bar_count : Z) (k : nat) : Chunk :=
  mkChunk (last_chunk_date - Z.of_nat k * ((bar_count + 1) * minute))
    (inject_Z bar_count).

Definition ends_increasing (chunks : list Chunk) : Prop :=
  StronglySorted (fun c1 c2 => chunk_end_ c1 < chunk_end_ c2) chunks.

End Planner.
Export Planner.

(** ** Reconciliation: the forward fill of [ingest] *)

Module Reconciler.

(** [next((candle for candle in asset_candles
          if candle['last_traded'] == date), previous)] *)
Definition next_candle (asset_candles : list Candle) (date : Timestamp)
    (previous : option Candle) : option Candle :=
  match List.find (fun candle => last_traded candle =? date) asset_candles with
  | Some candle => Some candle
  | None => previous
  end.

(** [while date <= chunk_end], for the asset whose key in
    [previous_candle] is [key]. *)
Fixpoint walk (fuel : nat) (key : Z) (asset_candles : list Candle)
    (chunk_end date : Timestamp) (all_dates : list Timestamp)
    (all_candles : list Candle) (previous_candle : gmap Z Candle)
  : option (list Timestamp * list Candle * gmap Z Candle) :=
  match fuel with
  | O => None
  | S fuel' =>
      if date <=? chunk_end then
        let previous := previous_candle !! key in
        match next_candle asset_candles date previous with
        | Some candle =>
            walk fuel' key asset_candles chunk_end (date + minute)
              (all_dates ++ [date]) (all_candles ++ [candle])
              (<[key := candle]> previous_candle)
        | None =>
            walk fuel' key asset_candles chunk_end (date + minute)
              all_dates all_candles previous_candle
        end
      else Some (all_dates, all_candles, previous_candle)
  end.

(** Enough fuel for the walk from [chunk_start] to [chunk_end]: one more
    than the number of minutes walked. *)
Definition walk_fuel (chunk_start chunk_end : Timestamp) : nat :=
  S (Z.to_nat ((chunk_end - chunk_start) / minute + 1)).

Fixpoint insert_row (row : Timestamp * Candle) (df : DataFrame) : DataFrame :=
  match df with
  | [] => [row]
  | r :: rest =>
      if fst row <? fst r then row :: r :: rest else r :: insert_row row rest
  end.

(** [df.sort_index(inplace=True)] *)
Definition sort_index (df : DataFrame) : DataFrame :=
  fold_left (fun sorted row => insert_row row sorted) df [].

(** [df.loc[date]]: the candle of the first row indexed by [date]. *)
Definition row_at (df : DataFrame) (date : Timestamp) : option Candle :=
  match List.find (fun row => fst row =? date) df with
  | Some row => Some (snd row)
  | None => None
  end.

(** One turn of [for asset in candles]; assets are keyed by [sid] in
    [previous_candle]. *)
Definition reconcile_asset (chunk_start chunk_end : Timestamp)
    (asset : Asset) (asset_candles : list Candle)
    (num_candles : nat) (data : list (Z * DataFrame))
    (previous_candle : gmap Z Candle)
  : option (nat * list (Z * DataFrame) * gmap Z Candle) :=
  match asset_candles with
  | [] => Some (num_candles, data, previous_candle)
  | _ :: _ =>
      match walk (walk_fuel chunk_start chunk_end) (sid asset) asset_candles
              chunk_end chunk_start [] [] previous_candle with
      | None => None
      | Some (all_dates, all_candles, previous_candle') =>
          let df : DataFrame := combine all_dates all_candles in
          match df with
          | [] => Some (num_candles, data, previous_candle')
          | _ :: _ =>
              let df := sort_index df in
              Some ((num_candles + length df)%nat,
                    data ++ [(sid asset, df)], previous_candle')
          end
      end
  end.

Fixpoint reconcile (chunk_start chunk_end : Timestamp)
    (candles : list (Asset * list Candle))
    (num_candles : nat) (data : list (Z * DataFrame))
    (previous_candle : gmap Z Candle)
  : option (nat * list (Z * DataFrame) * gmap Z Candle) :=
  match candles with
  | [] => Some (num_candles, data, previous_candle)
  | (asset, asset_candles) :: rest =>
      match reconcile_asset chunk_start chunk_end asset asset_candles
              num_candles data previous_candle with
      | None => None
      | Some (num_candles', data', previous_candle') =>
          reconcile chunk_start chunk_end rest num_candles' data' previous_candle'
      end
  end.

(** *** Closed forms of the walk, used in the statements *)

(** The [k]-th minute of a walk that starts at [chunk_start]. *)
Definition minute_at (chunk_start : Timestamp) (k : nat) : Timestamp :=
  chunk_start + Z.of_nat k * minute.

(** How many minutes the walk from [chunk_start] to [chunk_end] visits. *)
Definition walk_length (chunk_start chunk_end : Timestamp) : nat :=
  Z.to_nat ((chunk_end - chunk_start) / minute + 1).

(** The candle fetched at [t]: the first of the list traded at [t]. *)
Definition fetched_at (asset_candles : list Candle) (t : Timestamp)
  : option Candle :=
  List.find (fun candle => last_traded candle =? t) asset_candles.

(** The last known candle of the asset after [k] minutes of the walk,
    [previous] being the one known before it. *)
Fixpoint carried (asset_candles : list Candle) (chunk_start : Timestamp)
    (previous : option Candle) (k : nat) : option Candle :=
  match k with
  | O => previous
  | S k' =>
      next_candle asset_candles (minute_at chunk_start k')
        (carried asset_candles chunk_start previous k')
  end.

(** The rows of the first [n] minutes of the walk. *)
Definition dense (asset_candles : list Candle) (chunk_start : Timestamp)
    (previous : option Candle) (n : nat) : DataFrame :=
  flat_map
    (fun k =>
       match carried asset_candles chunk_start previous (S k) with
       | Some candle => [(minute_at chunk_start k, candle)]
       | None => []
       end)
    (seq 0 n).

(** The series [reconcile_asset] hands to the writer for the asset, empty
    when it hands none. *)
Definition series_of (chunk_start chunk_end : Timestamp) (asset : Asset)
    (asset_candles : list Candle) (previous_candle : gmap Z Candle)
  : DataFrame :=
  match reconcile_asset chunk_start chunk_end asset asset_candles 0 []
          previous_candle with
  | Some (_, [(_, df)], _) => df
  | _ => []
  end.

(** The invariant of the dense series in the words of the specification:
    an asset with a carried candle has a row at every minute of the
    window of a later chunk, whatever was fetched for it there. *)
Definition carried_fills_every_minute : Prop :=
  forall (chunk_start chunk_end : Timestamp) (asset : Asset)
         (asset_candles : list Candle) (previous_candle : gmap Z Candle)
         (candle : Candle) (k : nat),
    previous_candle !! sid asset = Some candle ->
    (k < walk_length chunk_start chunk_end)%nat ->
    row_at (series_of chunk_start chunk_end asset asset_candles previous_candle)
      (minute_at chunk_start k) <> None.

End Reconciler.
Export Reconciler.

(** ** The ingestion loop: the second half of [ingest] *)

Section Ingest.

Context `{C : Collaborators}.

(** The [except BcolzMinuteOverlappingData] clause. *)
Definition on_write_error (e : exn) (st : Run) : Result unit * Run :=
  match e with
  | BcolzMinuteOverlappingData =>
      (Returns tt, emit (Log Warn "chunk already exists {}: {}") st)
  | _ => (Raises e, st)
  end.

(** The [try] statement that ends the body of the chunk loop. *)
Definition write_chunk (data : list (Z * DataFrame)) (st : Run)
  : Result unit * Run :=
  let st := emit (Log Debug "writing {num_candles} candles from {start} to {end}") st in
  let st := fold_left (fun s _ => emit (Log Debug "data for sid {}") s) data st in
  match writer st with
  | (Raises e, st') => on_write_error e st'
  | (Returns w, st') =>
      let st' := emit (WriteCall data) st' in
      match writer_write w data (world st') with
      | (Returns _, wd) => (Returns tt, set_world wd st')
      | (Raises e, wd) => on_write_error e (set_world wd st')
      end
  end.

(** The assets of the bundle listed by the end of the chunk. *)
Definition chunk_assets_of (chunk_end : Timestamp) (assets : list Asset)
  : list Asset :=
  List.filter (fun asset => start_date asset <=? chunk_end) assets.

(** The [log.debug('no data: ...')] of the assets that came back empty. *)
Definition log_no_data (candles : list (Asset * list Candle)) (st : Run) : Run :=
  fold_left
    (fun s entry =>
       match snd entry with
       | [] => emit (Log Debug "no data: {symbols} on {exchange}, date {end}") s
       | _ :: _ => s
       end)
    candles st.

(** The body of [for chunk in it]. It gives the [previous_candle] dict
    after the chunk. *)
Definition ingest_chunk (frequency : string) (chunk : Chunk)
    (previous_candle : gmap Z Candle) (st : Run)
  : option (Result (gmap Z Candle) * Run) :=
  let chunk_end := chunk_end_ chunk in
  let chunk_start := chunk_start_of chunk in
  let chunk_assets := chunk_assets_of chunk_end (assets (self st)) in
  match check_data_exists chunk_assets chunk_start chunk_end st with
  | (Raises e, st1) => Some (Raises e, st1)
  | (Returns true, st1) =>
      Some (Returns previous_candle,
            emit (Log Debug "the data chunk already exists") st1)
  | (Returns false, st1) =>
      let st2 := emit (FetchCall chunk_assets frequency chunk_end (bar_count chunk)) st1 in
      match fetch_candles_chunk chunk_assets frequency chunk_end
              (bar_count chunk) (world st2) with
      | (Raises e, wd) => Some (Raises e, set_world wd st2)
      | (Returns candles, wd) =>
          let st3 := emit (Log Debug "requests counter {}") (set_world wd st2) in
          match reconcile chunk_start chunk_end candles 0 [] previous_candle with
          | None => None
          | Some (_, data, previous_candle') =>
              match write_chunk data (log_no_data candles st3) with
              | (Returns _, st4) => Some (Returns previous_candle', st4)
              | (Raises e, st4) => Some (Raises e, st4)
              end
          end
      end
  end.

Fixpoint ingest_chunks (frequency : string) (chunks : list Chunk)
    (previous_candle : gmap Z Candle) (st : Run)
  : option (Result unit * Run) :=
  match chunks with
  | [] => Some (Returns tt, st)
  | chunk :: rest =>
      match ingest_chunk frequency chunk previous_candle st with
      | None => None
      | Some (Raises e, st') => Some (Raises e, st')
      | Some (Returns previous_candle', st') =>
          ingest_chunks frequency rest previous_candle' st'
      end
  end.

Definition ingest (fuel : nat) (st : Run) : option (Result unit * Run) :=
  let st := emit (Log Debug "ingesting trading pairs {symbols} on exchange {exchange} from {start} to {end}") st in
  let b := self st in
  match planned fuel (data_frequency b) (num_candles_limit b) (start b) (end_ b) with
  | None => None
  | Some (Raises e) => Some (Raises e, st)
  | Some (Returns (chunks, frequency)) => ingest_chunks frequency chunks ∅ st
  end.

End Ingest.

(** ** Closed forms and predicates used in the statements *)

Section Statements.

Context `{C : Collaborators}.

(** The value at [t] is readable and is a number. *)
Definition endpoint_ok (r : Reader) (w : World) (asset : Asset) (t : Timestamp)
  : Prop :=
  exists v, get_value r w (sid asset) t = Returns (Num v).

(** The value at [t] is missing: the read gives NaN or raises. *)
Definition endpoint_missing (r : Reader) (w : World) (asset : Asset)
    (t : Timestamp) : Prop :=
  get_value r w (sid asset) t = Returns NaN
  \/ exists e, get_value r w (sid asset) t = Raises e.

(** What [check_loop] computes, without the loop. *)
Definition check_value (assets : list Asset) (start end_ : Timestamp)
    (has_data : bool) (st : Run) : Result bool :=
  if has_data then
    match assets with
    | [] => Returns true
    | _ :: _ =>
        match fst (reader st) with
        | Raises e => Raises e
        | Returns None => Returns false
        | Returns (Some r) =>
            Returns (forallb (fun a => endpoints_present r (world st) a start end_)
                       assets)
        end
    end
  else Returns false.

(** The data and the state with which the body of the chunk loop enters
    its final [try]: the existence check said no, the fetch returned and
    the candles were reconciled. *)
Definition reaches_write (frequency : string) (chunk : Chunk)
    (previous_candle : gmap Z Candle) (st : Run)
  : option (list (Z * DataFrame) * gmap Z Candle * Run) :=
  let chunk_end := chunk_end_ chunk in
  let chunk_start := chunk_start_of chunk in
  let chunk_assets := chunk_assets_of chunk_end (assets (self st)) in
  match check_data_exists chunk_assets chunk_start chunk_end st with
  | (Returns false, st1) =>
      let st2 := emit (FetchCall chunk_assets frequency chunk_end (bar_count chunk)) st1 in
      match fetch_candles_chunk chunk_assets frequency chunk_end
              (bar_count chunk) (world st2) with
      | (Returns candles, wd) =>
          let st3 := emit (Log Debug "requests counter {}") (set_world wd st2) in
          match reconcile chunk_start chunk_end candles 0 [] previous_candle with
          | Some (_, data, previous_candle') =>
              Some (data, previous_candle', log_no_data candles st3)
          | None => None
          end
      | (Raises _, _) => None
      end
  | _ => None
  end.

(** The write of [data] from [st] raises [e], out of the [writer]
    property or out of [write] itself. *)
Definition write_raises (data : list (Z * DataFrame)) (st : Run) (e : exn)
  : Prop :=
  let st := emit (Log Debug "writing {num_candles} candles from {start} to {end}") st in
  let st := fold_left (fun s _ => emit (Log Debug "data for sid {}") s) data st in
  fst (writer st) = Raises e
  \/ exists w, fst (writer st) = Returns w
       /\ fst (writer_write w data (world (emit (WriteCall data) (snd (writer st)))))
          = Raises e.

Definition is_fetch (e : Event) : bool :=
  match e with
  | FetchCall _ _ _ _ => true
  | _ => false
  end.

Definition is_write (e : Event) : bool :=
  match e with
  | WriteCall _ => true
  | _ => false
  end.

End Statements.

(** ** A small store to run the definitions on *)

Module ListStore.

(** The close values on disk, by sid and timestamp, and the candles the
    exchange would serve, by sid. *)
Record Disk : Type := mkDisk {
  stored : list (Z * Timestamp * Reading);
  remote : list (Z * Candle)
}.

Definition stored_at (d : Disk) (s : Z) (t : Timestamp) : option Reading :=
  match List.find (fun e => (fst (fst e) =? s) && (snd (fst e) =? t)) (stored d) with
  | Some e => Some (snd e)
  | None => None
  end.

Definition read (d : Disk) (s : Z) (t : Timestamp) : Result Reading :=
  match stored_at d s t with
  | Some v => Returns v
  | None => Raises (OtherError "no such minute")
  end.

Definition overlaps (d : Disk) (unit : Z * DataFrame) : bool :=
  existsb (fun row =>
             match stored_at d (fst unit) (fst row) with
             | Some _ => true
             | None => false
             end) (snd unit).

Definition rows_of (unit : Z * DataFrame) : list (Z * Timestamp * Reading) :=
  map (fun row => (fst unit, fst row, Num (close (snd row)))) (snd unit).

Definition write (data : list (Z * DataFrame)) (d : Disk) : Result unit * Disk :=
  if existsb (overlaps d) data then (Raises BcolzMinuteOverlappingData, d)
  else (Returns tt, mkDisk (stored d ++ concat (map rows_of data)) (remote d)).

Definition served (d : Disk) (end_dt : Timestamp) (bars : Q) (asset : Asset)
  : Asset * list Candle :=
  (asset,
   map snd
     (List.filter
        (fun e => (fst e =? sid asset)
                  && (end_dt - timedelta_minutes bars <? last_traded (snd e))
                  && (last_traded (snd e) <=? end_dt))
        (remote d))).

#[export] Instance list_store : Collaborators := {|
  World := Disk;
  Reader := unit;
  Writer := unit;
  open_reader := fun _ d => match stored d with [] => None | _ :: _ => Some tt end;
  get_value := fun _ d s t => read d s t;
  open_writer := fun _ _ _ d => (Returns tt, d);
  writer_write := fun _ data d => write data d;
  fetch_candles_chunk :=
    fun assets _ end_dt bars d => (Returns (map (served d end_dt bars) assets), d)
|}.

Definition candle_at (t : Timestamp) (price : Z) : Candle :=
  mkCandle t (inject_Z price) (inject_Z price) (inject_Z price)
    (inject_Z price) 1.

Definition asset_A : Asset := mkAsset 1 "A" 0.
Definition asset_B : Asset := mkAsset 2 "B" (3 * day).

Definition c0 : Candle := candle_at 0 100.
Definition c3 : Candle := candle_at (3 * minute) 103.

Definition bundle_of (frequency : string) (limit : Z) (assets : list Asset)
    (start end_ : Timestamp) : ExchangeBundle :=
  mkBundle limit frequency assets start end_ None None.

Definition run_of (b : ExchangeBundle) (d : Disk) : Run := mkRun b d [].

(** A disk that holds asset A's close of minute 1 only, while the exchange
    serves the candle of that minute. *)
Definition disk_minute_1 : Disk :=
  mkDisk [(1, 1 * minute, Num 100)] [(1, candle_at (1 * minute) 100)].

Definition empty_disk : Disk := mkDisk [] [].

Definition run_A : Run :=
  run_of (bundle_of "minute" 2 [asset_A] 0 (10 * minute)) disk_minute_1.

Definition run_B : Run :=
  run_of (bundle_of "minute" 2 [asset_B] 0 (10 * minute)) empty_disk.

Definition chunk_0_2 : Chunk := mkChunk (2 * minute) 2.

(** A range that starts and ends half a minute off the minute, short
    enough for a single chunk, while the exchange serves asset A's
    candles of minutes 1 and 3. *)
Definition c1 : Candle := candle_at (1 * minute) 101.

Definition half_minute : Z := 30000000000.

Definition disk_remote_1_3 : Disk := mkDisk [] [(1, c1); (1, c3)].

Definition run_unaligned : Run :=
  run_of (bundle_of "minute" 10 [asset_A] half_minute (4 * minute + half_minute))
    disk_remote_1_3.

(** A bundle with a frequency that is neither minute nor daily. *)
Definition run_hourly : Run :=
  run_of (bundle_of "hourly" 2 [asset_A] 0 (10 * minute)) disk_minute_1.

(** A disk that holds asset A's closes of minutes 0 and 2. *)
Definition disk_0_2 : Disk :=
  mkDisk [(1, 0, Num 100); (1, 2 * minute, Num 102)] [].

Definition run_present : Run :=
  run_of (bundle_of "minute" 2 [asset_A] 0 (10 * minute)) disk_0_2.

End ListStore.

(** ** The rest of the class: what the statements on it need *)

Section Frame.

Context `{C : Collaborators}.

(** The configuration of the bundle: everything but the two lazily bound
    handles. *)
Definition same_config (b b' : ExchangeBundle) : Prop :=
  num_candles_limit b' = num_candles_limit b
  /\ data_frequency b' = data_frequency b
  /\ assets b' = assets b
  /\ start b' = start b
  /\ end_ b' = end_ b.

Definition is_log (e : Event) : bool :=
  match e with
  | Log _ _ => true
  | _ => false
  end.

(** The calls to collaborators that a trace records. *)
Definition calls (tr : list Event) : list Event :=
  List.filter (fun e => is_fetch e || is_write e) tr.

(** The ends of the fetches of a trace, in order. *)
Definition fetch_ends (tr : list Event) : list Timestamp :=
  flat_map (fun e => match e with
                     | FetchCall _ _ end_dt _ => [end_dt]
                     | _ => []
                     end) tr.

(** A fetch asks for the assets of the bundle listed by its end, those
    and no others, and for no more bars than [limit]. *)
Definition fetch_within (limit : Z) (all : list Asset) (e : Event) : Prop :=
  match e with
  | FetchCall assets _ end_dt bars =>
      assets = chunk_assets_of end_dt all
      /\ (bars <= inject_Z limit)%Q
  | _ => True
  end.

End Frame.

(** ** A store that answers as told *)

Module Scripted.

(** No reader can be opened; every fetch gives [fetched] and every write
    gives [written]. *)
Definition store (fetched : Result (list (Asset * list Candle)))
    (written : Result unit) : Collaborators := {|
  World := unit;
  Reader := unit;
  Writer := unit;
  open_reader := fun _ _ => None;
  get_value := fun _ _ _ _ => Raises IOError;
  open_writer := fun _ _ _ w => (Returns tt, w);
  writer_write := fun _ _ w => (written, w);
  fetch_candles_chunk := fun _ _ _ _ w => (fetched, w)
|}.

Definition run_on (C : Collaborators) (w : @World C) (frequency : string)
    (limit : Z) (assets : list Asset) (start end_ : Timestamp) : @Run C :=
  @mkRun C (@mkBundle C limit frequency assets start end_ None None) w [].

(** The exchange is down. *)
Definition exchange_down : Collaborators :=
  store (Raises (OtherError "exchange down")) (Returns tt).

(** The disk is full: the write fails, and not for an overlap. *)
Definition disk_full : Collaborators :=
  store (Returns [(ListStore.asset_A, [ListStore.c0])])
    (Raises (OtherError "disk full")).

Definition run_down : @Run exchange_down :=
  run_on exchange_down tt "minute" 2 [ListStore.asset_A] 0 (10 * minute).

Definition run_full : @Run disk_full :=
  run_on disk_full tt "minute" 2 [ListStore.asset_A] 0 (10 * minute).

End Scripted.

(** ** The rest of the module: [_cachpath], [get_assets], [__init__] *)

Module Symbols.

(** [sep.join(parts)] *)
Fixpoint str_join (sep : string) (parts : list string) : string :=
  match parts with
  | [] => EmptyString
  | part :: rest =>
      match rest with
      | [] => part
      | _ :: _ => part +:+ sep +:+ str_join sep rest
      end
  end.

(** [_cachpath(symbol, type_)] *)
Definition _cachpath (symbol type_ : string) : string :=
  str_join "-" [symbol; type_].

(** [s.split(sep)] for a separator of one character. *)
Fixpoint str_split (sep : Ascii.ascii) (s : string) : list string :=
  match s with
  | EmptyString => [EmptyString]
  | String c rest =>
      if Ascii.eqb c sep then EmptyString :: str_split sep rest
      else
        match str_split sep rest with
        | [] => [String c EmptyString]
        | word :: words => String c word :: words
        end
  end.

(** [c in s] *)
Fixpoint has_char (c : Ascii.ascii) (s : string) : bool :=
  match s with
  | EmptyString => false
  | String c' rest => Ascii.eqb c' c || has_char c rest
  end.

End Symbols.
Export Symbols.

(** The exchange behind [get_exchange(exchange_name)]: its catalog and
    its limit of candles for one request. *)
Class Exchange : Type := {
  exchange_get_assets : option (list string) -> list Asset;
  exchange_num_candles_limit : Z
}.

Section Construction.

Context `{E : Exchange} `{C : Collaborators}.

(** [get_assets]; [exclude_symbols] is not looked at. *)
Definition get_assets (include_symbols exclude_symbols : option string)
  : list Asset :=
  match include_symbols with
  | Some symbols => exchange_get_assets (Some (str_split ","%char symbols))
  | None => exchange_get_assets None
  end.

(** [__init__], for a [start] and an [end] that are given; [now] is the
    time at which [get_adj_dates] reads the clock. *)
Definition init (now : Timestamp) (data_frequency : string)
    (include_symbols exclude_symbols : option string)
    (start end_ : Timestamp) : Result ExchangeBundle :=
  let assets := get_assets include_symbols exclude_symbols in
  match get_adj_dates now assets start end_ with
  | Raises e => Raises e
  | Returns (start, end_) =>
      Returns (mkBundle exchange_num_candles_limit data_frequency assets
                 start end_ None None)
  end.

End Construction.

Module TwoAssets.

(** An exchange that lists A and B and serves at most 3 candles. *)
#[export] Instance exchange : Exchange := {|
  exchange_get_assets := fun _ => [ListStore.asset_A; ListStore.asset_B];
  exchange_num_candles_limit := 3
|}.

End TwoAssets.

(** * Properties *)

(** ** Range resolution *)

Module RangeResolverFacts.

Lemma earliest_fold (l : list Asset) (e : Timestamp) :
  exists m,
    fold_left earliest_step l (Some e) = Some m
    /\ m <= e
    /\ Forall (fun a => m <= start_date a) l
    /\ (m = e \/ In m (map start_date l)).
Proof.
  revert e. induction l as [|a l IH]; intros e; simpl.
  - exists e. repeat split; [lia | constructor | now left].
  - destruct (Z.ltb_spec (start_date a) e) as [Hlt|Hge].
    + destruct (IH (start_date a)) as (m & Hm & Hle & Hall & Hin).
      exists m. repeat split; try assumption; try lia.
      * constructor; assumption.
      * right. destruct Hin as [->|Hin]; [now left | now right].
    + destruct (IH e) as (m & Hm & Hle & Hall & Hin).
      exists m. repeat split; try assumption.
      * constructor; [lia | assumption].
      * destruct Hin as [->|Hin]; [now left | right; now right].
Qed.

Lemma is_earliest_unique (assets : list Asset) (e1 e2 : Timestamp) :
  is_earliest e1 assets -> is_earliest e2 assets -> e1 = e2.
Proof.
  intros [Hin1 Hall1] [Hin2 Hall2].
  apply in_map_iff in Hin1 as (a1 & <- & Ha1).
  apply in_map_iff in Hin2 as (a2 & <- & Ha2).
  rewrite Forall_forall in Hall1, Hall2.
  specialize (Hall1 a2 ltac:(now apply list_elem_of_In)).
  specialize (Hall2 a1 ltac:(now apply list_elem_of_In)).
  simpl in *. lia.
Qed.

Lemma earliest_trade_of_cons (a : Asset) (l : list Asset) :
  exists m, earliest_trade_of (a :: l) = Some m /\ is_earliest m (a :: l).
Proof.
  unfold earliest_trade_of. simpl.
  destruct (earliest_fold l (start_date a)) as (m & Hm & Hle & Hall & Hin).
  exists m. split; [assumption|]. split.
  - simpl. destruct Hin as [->|Hin]; [now left | now right].
  - constructor; assumption.
Qed.

Lemma earliest_trade_of_is_earliest (assets : list Asset) (e : Timestamp) :
  is_earliest e assets -> earliest_trade_of assets = Some e.
Proof.
  intros He. destruct assets as [|a l].
  - destruct He as [[] _].
  - destruct (earliest_trade_of_cons a l) as (m & Hm & Hmin).
    rewrite Hm. f_equal. eapply is_earliest_unique; eassumption.
Qed.

Lemma earliest_trade_of_some (assets : list Asset) (e : Timestamp) :
  earliest_trade_of assets = Some e -> is_earliest e assets.
Proof.
  destruct assets as [|a l]; [discriminate|].
  destruct (earliest_trade_of_cons a l) as (m & Hm & Hmin).
  rewrite Hm. now intros [= <-].
Qed.

(** C5. Whenever the adjusted range has its start at or after its end
    (the end clamped to now, the start raised to the earliest start date
    of the assets), [get_adj_dates] raises its invalid-range error
    ([ValueError('start date cannot be after end date')]) and returns no
    range. *)
Theorem get_adj_dates_rejects_invalid_range
    (now : Timestamp) (assets : list Asset) (start end_ e : Timestamp) :
  is_earliest e assets ->
  Z.min end_ now <= Z.max start e ->
  get_adj_dates now assets start end_ = Raises invalid_range.
Proof.
  intros He Hbad. unfold get_adj_dates. cbv zeta.
  rewrite (earliest_trade_of_is_earliest _ _ He).
  destruct (Z.ltb_spec now end_), (Z.ltb_spec start e);
    match goal with
    | |- context [?a <=? ?b] => destruct (Z.leb_spec a b)
    end; try reflexivity; lia.
Qed.

Lemma get_adj_dates_rejects_invalid_range_witness :
  is_earliest 0 [ListStore.asset_A]
  /\ Z.min 5 100 <= Z.max 7 0
  /\ get_adj_dates 100 [ListStore.asset_A] 7 5 = Raises invalid_range.
Proof.
  assert (He : is_earliest 0 [ListStore.asset_A]).
  { split; [now left | constructor; [simpl; lia | constructor]]. }
  assert (Hb : Z.min 5 100 <= Z.max 7 0) by (vm_compute; discriminate).
  split; [exact He|]. split; [exact Hb|].
  exact (get_adj_dates_rejects_invalid_range 100 [ListStore.asset_A] 7 5 0 He Hb).
Defined.

(** C6. When range resolution succeeds, the resolved start is at least
    the earliest start date of the assets (which exists), the resolved end
    is at most now, it is now when the requested end was in the future,
    and the requested end otherwise. *)
Theorem get_adj_dates_monotone
    (now : Timestamp) (assets : list Asset) (start end_ start' end' : Timestamp) :
  get_adj_dates now assets start end_ = Returns (start', end') ->
  (exists e, is_earliest e assets /\ e <= start')
  /\ (forall a, In a assets -> exists e, is_earliest e assets /\ e <= start_date a /\ e <= start')
  /\ end' <= now
  /\ (now < end_ -> end' = now)
  /\ (end_ <= now -> end' = end_).
Proof.
  unfold get_adj_dates. cbv zeta.
  destruct (earliest_trade_of assets) as [e|] eqn:He; [|discriminate].
  apply earliest_trade_of_some in He.
  destruct (Z.leb_spec (if now <? end_ then now else end_)
              (if start <? e then e else start)); [discriminate|].
  intros Heq. injection Heq as <- <-.
  assert (Hs : e <= (if start <? e then e else start))
    by (destruct (Z.ltb_spec start e); lia).
  split; [exists e; split; assumption|].
  split.
  { intros a Ha. exists e. split; [assumption|]. split; [|assumption].
    destruct He as [_ Hall]. rewrite Forall_forall in Hall.
    apply Hall. now apply list_elem_of_In. }
  destruct (Z.ltb_spec now end_); repeat split; intros; lia.
Qed.

Lemma get_adj_dates_monotone_witness :
  get_adj_dates 100 [ListStore.asset_A; ListStore.asset_B] (-4) 200
    = Returns (0, 100)
  /\ (exists e, is_earliest e [ListStore.asset_A; ListStore.asset_B] /\ e <= 0)
  /\ 100 <= 100.
Proof.
  assert (H : get_adj_dates 100 [ListStore.asset_A; ListStore.asset_B] (-4) 200
              = Returns (0, 100)) by reflexivity.
  destruct (get_adj_dates_monotone _ _ _ _ _ _ H) as (H1 & _ & H3 & _).
  split; [exact H|]. split; [exact H1 | exact H3].
Defined.

End RangeResolverFacts.

(** ** The existence check *)

Section ExistenceFacts.

Context `{C : Collaborators}.

Lemma reader_again (st st' : Run) (r : Reader) :
  reader st = (Returns (Some r), st') ->
  reader st' = (Returns (Some r), st') /\ world st' = world st.
Proof.
  unfold reader.
  destruct (_reader (self st)) as [r0|] eqn:Hr.
  - intros [= -> <-]. now rewrite Hr.
  - destruct (supported (data_frequency (self st))); [|discriminate].
    destruct (open_reader (data_frequency (self st)) (world st));
      [|discriminate].
    intros [= -> <-]. simpl. auto.
Qed.

Lemma reader_world (st : Run) : world (snd (reader st)) = world st.
Proof.
  unfold reader.
  destruct (_reader (self st)); [reflexivity|].
  destruct (supported (data_frequency (self st))); [|reflexivity].
  now destruct (open_reader (data_frequency (self st)) (world st)).
Qed.

Lemma check_loop_value (assets : list Asset) (start end_ : Timestamp)
    (has_data : bool) (st : Run) :
  fst (check_loop assets start end_ has_data st)
  = check_value assets start end_ has_data st.
Proof.
  revert has_data st.
  induction assets as [|a rest IH]; intros has_data st.
  - now destruct has_data.
  - simpl. destruct has_data.
    2:{ rewrite IH. reflexivity. }
    unfold check_value at 1.
    destruct (reader st) as [[[r|]|e] st'] eqn:Hrd; simpl.
    + rewrite IH. apply reader_again in Hrd as [Hrd Hw].
      rewrite Hw.
      destruct (endpoints_present r (world st) a start end_); simpl;
        [|reflexivity].
      unfold check_value. destruct rest; [reflexivity|].
      rewrite Hrd, Hw. reflexivity.
    + now rewrite IH.
    + reflexivity.
Qed.

Lemma endpoints_present_true (r : Reader) (w : World) (a : Asset)
    (start end_ : Timestamp) :
  endpoints_present r w a start end_ = true
  <-> endpoint_ok r w a start /\ endpoint_ok r w a end_.
Proof.
  unfold endpoints_present, endpoint_ok.
  destruct (get_value r w (sid a) start) as [[v|]|e];
    destruct (get_value r w (sid a) end_) as [[v'|]|e']; simpl;
    split; try discriminate; try (intros [[? [=]] [? [=]]]); eauto.
Qed.

Lemma endpoints_present_false (r : Reader) (w : World) (a : Asset)
    (start end_ : Timestamp) :
  endpoint_missing r w a start \/ endpoint_missing r w a end_ ->
  endpoints_present r w a start end_ = false.
Proof.
  intros Hbad.
  destruct (endpoints_present r w a start end_) eqn:Hp; [|reflexivity].
  exfalso. apply endpoints_present_true in Hp as [[v Hv] [v' Hv']].
  destruct Hbad as [[H|[e H]]|[H|[e H]]]; congruence.
Qed.

(** C4. For a non-empty asset list the existence check gives true only
    when a reader exists and, for every asset, the close at the window
    start and the close at the window end are both read and are numbers;
    when no reader exists, or some asset has an endpoint whose read gives
    NaN or raises, it gives false for the whole list. *)
Theorem check_data_exists_conservative
    (assets : list Asset) (start end_ : Timestamp) (st : Run) :
  assets <> [] ->
  (fst (check_data_exists assets start end_ st) = Returns true ->
   exists r, fst (reader st) = Returns (Some r)
     /\ Forall (fun a => endpoint_ok r (world st) a start
                         /\ endpoint_ok r (world st) a end_) assets)
  /\ (fst (reader st) = Returns None ->
      fst (check_data_exists assets start end_ st) = Returns false)
  /\ (forall r a,
        fst (reader st) = Returns (Some r) ->
        In a assets ->
        endpoint_missing r (world st) a start
        \/ endpoint_missing r (world st) a end_ ->
        fst (check_data_exists assets start end_ st) = Returns false).
Proof.
  intros Hne. unfold check_data_exists. rewrite check_loop_value.
  unfold check_value. destruct assets as [|a0 rest]; [congruence|].
  split; [|split].
  - destruct (fst (reader st)) as [[r|]|e]; try discriminate.
    intros [= Hall]. exists r. split; [reflexivity|].
    change (forallb (fun a => endpoints_present r (world st) a start end_)
              (a0 :: rest) = true) in Hall.
    rewrite forallb_forall in Hall.
    apply Forall_forall. intros a Ha.
    apply endpoints_present_true, Hall. now apply list_elem_of_In.
  - now intros ->.
  - intros r a -> Ha Hbad. f_equal.
    destruct (forallb _ (a0 :: rest)) eqn:Hall; [|reflexivity].
    rewrite forallb_forall in Hall. specialize (Hall a Ha).
    rewrite (endpoints_present_false _ _ _ _ _ Hbad) in Hall. discriminate.
Qed.

(** C10. For an empty asset list the existence check gives true for every
    window and every state of the store and of the reader, and leaves the
    state as it was; so a chunk none of whose assets is listed yet is
    skipped: the body of the chunk loop only logs, the trace gains no
    fetch and no write, the world and the carried candles are unchanged. *)
Theorem empty_chunk_is_skipped
    (frequency : string) (chunk : Chunk) (previous_candle : gmap Z Candle)
    (st : Run) :
  (forall start end_ st0, check_data_exists [] start end_ st0 = (Returns true, st0))
  /\ (chunk_assets_of (chunk_end_ chunk) (assets (self st)) = [] ->
      exists st',
        ingest_chunk frequency chunk previous_candle st
        = Some (Returns previous_candle, st')
        /\ trace st' = trace st ++ [Log Debug "the data chunk already exists"]
        /\ world st' = world st
        /\ self st' = self st
        /\ List.filter (fun e => is_fetch e || is_write e) (trace st')
           = List.filter (fun e => is_fetch e || is_write e) (trace st)).
Proof.
  split; [reflexivity|].
  intros Hempty. unfold ingest_chunk. rewrite Hempty. simpl.
  eexists. split; [reflexivity|]. simpl.
  repeat split. rewrite List.filter_app. simpl. now rewrite app_nil_r.
Qed.

End ExistenceFacts.

(** ** The write at the end of a chunk *)

Section WriteFacts.

Context `{C : Collaborators}.

Lemma on_write_error_overlap (st : Run) :
  on_write_error BcolzMinuteOverlappingData st
  = (Returns tt, emit (Log Warn "chunk already exists {}: {}") st).
Proof. reflexivity. Qed.

Lemma write_chunk_overlap (data : list (Z * DataFrame)) (st : Run) :
  write_raises data st BcolzMinuteOverlappingData ->
  exists st',
    write_chunk data st
    = (Returns tt, emit (Log Warn "chunk already exists {}: {}") st').
Proof.
  unfold write_raises, write_chunk. cbv zeta.
  set (st0 := fold_left _ data _).
  destruct (writer st0) as [[w|e] st1] eqn:Hw; simpl.
  - intros [[=]|(w' & [= <-] & Hraise)].
    destruct (writer_write w data (world st1)) as [[u|e] wd];
      simpl in Hraise; [discriminate|].
    injection Hraise as ->. eexists. apply on_write_error_overlap.
  - intros [[= ->]|(w' & [=] & _)]. eexists. apply on_write_error_overlap.
Qed.

Lemma reaches_write_ingest_chunk (frequency : string) (chunk : Chunk)
    (previous_candle previous_candle' : gmap Z Candle) (st st3 : Run)
    (data : list (Z * DataFrame)) :
  reaches_write frequency chunk previous_candle st
  = Some (data, previous_candle', st3) ->
  ingest_chunk frequency chunk previous_candle st
  = match write_chunk data st3 with
    | (Returns _, st4) => Some (Returns previous_candle', st4)
    | (Raises e, st4) => Some (Raises e, st4)
    end.
Proof.
  unfold reaches_write, ingest_chunk. cbv zeta.
  destruct (check_data_exists _ _ _ st) as [[[|]|e] st1]; try discriminate.
  destruct (fetch_candles_chunk _ _ _ _ _) as [[candles|e] wd];
    try discriminate.
  destruct (reconcile _ _ candles 0 [] previous_candle)
    as [[[n data0] prev0]|]; try discriminate.
  now intros [= <- <- <-].
Qed.

(** C9. When the body of the chunk loop reaches its write and the write
    raises the store's overlapping-write condition
    ([BcolzMinuteOverlappingData], the one condition the loop names,
    whatever the frequency of the bundle), the condition is caught, a
    warning is logged last, the body returns, and the loop goes on with the
    chunks that remain: the run is not aborted by it. *)
Theorem overlapping_write_is_not_fatal
    (frequency : string) (chunk : Chunk) (rest : list Chunk)
    (previous_candle previous_candle' : gmap Z Candle) (st st3 : Run)
    (data : list (Z * DataFrame)) :
  reaches_write frequency chunk previous_candle st
  = Some (data, previous_candle', st3) ->
  write_raises data st3 BcolzMinuteOverlappingData ->
  exists st4,
    write_chunk data st3 = (Returns tt, st4)
    /\ last (trace st4) = Some (Log Warn "chunk already exists {}: {}")
    /\ ingest_chunk frequency chunk previous_candle st
       = Some (Returns previous_candle', st4)
    /\ ingest_chunks frequency (chunk :: rest) previous_candle st
       = ingest_chunks frequency rest previous_candle' st4.
Proof.
  intros Hreach Hraise.
  destruct (write_chunk_overlap data st3 Hraise) as (st' & Hw).
  exists (emit (Log Warn "chunk already exists {}: {}") st').
  pose proof (reaches_write_ingest_chunk _ _ _ _ _ _ _ Hreach) as Hchunk.
  rewrite Hw in Hchunk.
  split; [exact Hw|]. split; [apply last_snoc|]. split; [exact Hchunk|].
  simpl. now rewrite Hchunk.
Qed.

End WriteFacts.

(** ** Chunk planning *)

Module PlannerFacts.

Lemma round_half_even_int (x : Q) (z : Z) :
  (x == inject_Z z)%Q -> round_half_even x = z.
Proof.
  intros Hx. unfold round_half_even.
  assert (Hf : Qfloor x = z) by (rewrite Hx; apply Qfloor_Z).
  rewrite Hf.
  assert (H0 : (x - inject_Z z == 0)%Q) by (rewrite Hx; ring).
  rewrite H0. reflexivity.
Qed.

(** [timedelta(minutes=n)] for an int [n] is exact. *)
Lemma timedelta_minutes_int (n : Z) :
  timedelta_minutes (inject_Z n) = n * minute.
Proof.
  unfold timedelta_minutes.
  rewrite (round_half_even_int _ (n * 60000000)).
  - unfold microsecond, minute. lia.
  - rewrite inject_Z_mult. reflexivity.
Qed.


Lemma periods_minute_le (d l : Z) :
  (total_seconds d / 60 <= inject_Z l)%Q <-> d <= l * minute.
Proof.
  unfold total_seconds, Qle, Qdiv, Qmult, Qinv, minute. simpl. lia.
Qed.



(** The loop, when it ends, has appended the chunks at
    [last_chunk_date - k * (bar_count + 1) minutes] for [k < n], where [n]
    is the first [k] at which the loop condition fails. *)
Lemma chunk_loop_closed (fuel : nat) (start bar_count : Z) :
  forall (last_chunk_date : Z) (acc chunks : list Chunk),
    chunk_loop fuel start bar_count last_chunk_date acc = Some chunks ->
    exists n : nat,
      chunks = acc ++ map (nth_chunk last_chunk_date bar_count) (seq 0 n)
      /\ (forall k : nat, (k < n)%nat ->
            start + bar_count * minute
            < last_chunk_date - Z.of_nat k * ((bar_count + 1) * minute))
      /\ last_chunk_date - Z.of_nat n * ((bar_count + 1) * minute)
         <= start + bar_count * minute.
Proof.
  induction fuel as [|fuel IH]; intros lcd acc chunks; simpl; [discriminate|].
  rewrite !timedelta_minutes_int.
  destruct (Z.ltb_spec (start + bar_count * minute) lcd) as [Hlt|Hge].
  - intros Hloop. apply IH in Hloop as (n & -> & Hin & Hout).
    exists (S n). split; [|split].
    + rewrite <- app_assoc. f_equal. simpl. f_equal.
      * unfold nth_chunk. f_equal. simpl. lia.
      * rewrite <- seq_shift, map_map. apply map_ext. intros k.
        unfold nth_chunk. f_equal. lia.
    + intros [|k] Hk; [simpl; lia|].
      specialize (Hin k ltac:(lia)). lia.
    + lia.
  - intros [= <-]. exists O. simpl. split; [now rewrite app_nil_r|].
    split; [intros k Hk; lia | lia].
Qed.

Lemma nth_chunk_seq_S (lcd bc : Z) (n : nat) :
  map (nth_chunk lcd bc) (seq 0 (S n))
  = mkChunk lcd (inject_Z bc)
    :: map (nth_chunk (lcd - (bc + 1) * minute) bc) (seq 0 n).
Proof.
  change (seq 0 (S n)) with (O :: seq 1 n). cbn [map].
  rewrite <- seq_shift, map_map.
  assert (H0 : nth_chunk lcd bc 0 = mkChunk lcd (inject_Z bc)).
  { unfold nth_chunk. change (Z.of_nat 0) with 0.
    now rewrite Z.mul_0_l, Z.sub_0_r. }
  rewrite H0. f_equal. apply map_ext. intros k.
  unfold nth_chunk. f_equal. lia.
Qed.

(** Conversely: fuel for one turn more than the chunks to append is
    enough, and the loop then gives exactly those chunks. *)
Lemma chunk_loop_run (start bar_count : Z) (n : nat) :
  forall (last_chunk_date : Z) (acc : list Chunk),
    (forall k : nat, (k < n)%nat ->
       start + bar_count * minute
       < last_chunk_date - Z.of_nat k * ((bar_count + 1) * minute)) ->
    last_chunk_date - Z.of_nat n * ((bar_count + 1) * minute)
    <= start + bar_count * minute ->
    chunk_loop (S n) start bar_count last_chunk_date acc
    = Some (acc ++ map (nth_chunk last_chunk_date bar_count) (seq 0 n)).
Proof.
  induction n as [|n IH]; intros lcd acc Hin Hout.
  - simpl. rewrite timedelta_minutes_int.
    destruct (Z.ltb_spec (start + bar_count * minute) lcd);
      [simpl in Hout; lia | now rewrite app_nil_r].
  - change (chunk_loop (S (S n)) start bar_count lcd acc)
      with (if start + timedelta_minutes (inject_Z bar_count) <? lcd
            then chunk_loop (S n) start bar_count
                   (lcd - timedelta_minutes (inject_Z (bar_count + 1)))
                   (acc ++ [mkChunk lcd (inject_Z bar_count)])
            else Some acc).
    rewrite !timedelta_minutes_int.
    pose proof (Hin O ltac:(lia)) as H0. simpl in H0.
    destruct (Z.ltb_spec (start + bar_count * minute) lcd); [|lia].
    rewrite IH.
    + now rewrite nth_chunk_seq_S, <- app_assoc.
    + intros k Hk. specialize (Hin (S k) ltac:(lia)). lia.
    + lia.
Qed.


(** With a limit of at least zero the step is positive and the loop
    ends. *)
Lemma chunk_loop_ends (start bar_count : Z) :
  0 <= bar_count ->
  forall (fuel : nat) (last_chunk_date : Z) (acc : list Chunk),
    last_chunk_date - (start + bar_count * minute) <= Z.of_nat fuel ->
    exists chunks,
      chunk_loop (S fuel) start bar_count last_chunk_date acc = Some chunks.
Proof.
  intros Hbc. induction fuel as [|fuel IH]; intros lcd acc Hfuel.
  - simpl. rewrite timedelta_minutes_int.
    destruct (Z.ltb_spec (start + bar_count * minute) lcd); [lia|eauto].
  - change (chunk_loop (S (S fuel)) start bar_count lcd acc)
      with (if start + timedelta_minutes (inject_Z bar_count) <? lcd
            then chunk_loop (S fuel) start bar_count
                   (lcd - timedelta_minutes (inject_Z (bar_count + 1)))
                   (acc ++ [mkChunk lcd (inject_Z bar_count)])
            else Some acc).
    rewrite !timedelta_minutes_int.
    destruct (Z.ltb_spec (start + bar_count * minute) lcd); [|eauto].
    apply IH. unfold minute in *. lia.
Qed.

Lemma StronglySorted_nth_error {A : Type} (R : A -> A -> Prop) (l : list A) :
  (forall (i j : nat) (a b : A),
      (i < j)%nat -> nth_error l i = Some a -> nth_error l j = Some b -> R a b) ->
  StronglySorted R l.
Proof.
  induction l as [|x l IH]; intros H; constructor.
  - apply IH. intros i j a b Hij Ha Hb. exact (H (S i) (S j) a b ltac:(lia) Ha Hb).
  - apply Forall_forall. intros y Hy.
    apply list_elem_of_In, In_nth_error in Hy as [j Hj].
    exact (H O (S j) x y ltac:(lia) eq_refl Hj).
Qed.

(** Reading the planned list by index: the chunks come oldest first. *)
Lemma nth_error_rev_chunks (lcd bc : Z) (n i : nat) (c : Chunk) :
  nth_error (rev (map (nth_chunk lcd bc) (seq 0 n))) i = Some c ->
  (i < n)%nat /\ c = nth_chunk lcd bc (n - S i).
Proof.
  rewrite nth_error_rev, length_map, length_seq.
  destruct (Nat.ltb_spec i n) as [Hlt|Hge]; [|discriminate].
  rewrite nth_error_map, nth_error_seq.
  destruct (Nat.ltb_spec (n - S i) n) as [_|Hge]; [|lia].
  simpl. intros [= <-]. split; [assumption|reflexivity].
Qed.

(** The multi-chunk branch of the plan, in closed form. *)
Lemma plan_chunks_multi (fuel : nat) (limit start end_ : Z) (periods : Q)
    (chunks : list Chunk) :
  Qle_bool periods (inject_Z limit) = false ->
  plan_chunks fuel limit start end_ periods = Some chunks ->
  exists n : nat,
    chunks = rev (map (nth_chunk (floor_1min end_) limit) (seq 0 n))
    /\ (forall k : nat, (k < n)%nat ->
          start + limit * minute
          < floor_1min end_ - Z.of_nat k * ((limit + 1) * minute))
    /\ floor_1min end_ - Z.of_nat n * ((limit + 1) * minute)
       <= start + limit * minute.
Proof.
  intros Hgt. unfold plan_chunks. rewrite Hgt. simpl.
  destruct (chunk_loop fuel start limit (floor_1min end_) []) as [l|] eqn:Hloop;
    [|discriminate].
  intros [= <-].
  apply chunk_loop_closed in Hloop as (n & -> & Hin & Hout).
  exists n. simpl. auto.
Qed.

Lemma plan_chunks_single (fuel : nat) (limit start end_ : Z) (periods : Q) :
  Qle_bool periods (inject_Z limit) = true ->
  plan_chunks fuel limit start end_ periods = Some [mkChunk end_ periods].
Proof. intros Hle. unfold plan_chunks. now rewrite Hle. Qed.

Lemma plan_chunks_increasing (fuel : nat) (limit start end_ : Z) (periods : Q)
    (chunks : list Chunk) :
  plan_chunks fuel limit start end_ periods = Some chunks ->
  ends_increasing chunks.
Proof.
  destruct (Qle_bool periods (inject_Z limit)) eqn:Hcmp.
  - rewrite plan_chunks_single by assumption. intros [= <-].
    repeat constructor.
  - intros Hplan.
    apply plan_chunks_multi in Hplan as (n & -> & Hin & Hout); [|assumption].
    apply StronglySorted_nth_error. intros i j a b Hij Ha Hb.
    apply nth_error_rev_chunks in Ha as [Hi ->].
    apply nth_error_rev_chunks in Hb as [Hj ->].
    unfold nth_chunk. simpl.
    specialize (Hin O ltac:(lia)). simpl in Hin.
    assert (Hstep : 0 < (limit + 1) * minute) by nia.
    nia.
Qed.

Lemma plan_chunks_ends (limit start end_ : Z) (periods : Q) :
  0 <= limit ->
  exists fuel chunks, plan_chunks fuel limit start end_ periods = Some chunks.
Proof.
  intros Hlimit. unfold plan_chunks.
  destruct (Qle_bool periods (inject_Z limit)); simpl.
  { exists O. eauto. }
  set (fuel := Z.to_nat (floor_1min end_ - (start + limit * minute))).
  destruct (chunk_loop_ends start limit Hlimit fuel (floor_1min end_) [])
    as [chunks Hloop]; [unfold fuel; lia|].
  exists (S fuel), (rev chunks). now rewrite Hloop.
Qed.

End PlannerFacts.

Module PlanTheorems.
Import PlannerFacts.



(** C7. Whatever the frequency, every chunk list the planner gives (one
    chunk or many) is strictly increasing in the end timestamp, in the
    order in which the chunks are run; and with a limit of at least zero
    the planner does give a result, given enough fuel. *)
Theorem planned_ends_increasing
    (frequency : string) (limit start end_ : Z) :
  (0 <= limit ->
   exists fuel r, planned fuel frequency limit start end_ = Some r)
  /\ (forall fuel chunks token,
        planned fuel frequency limit start end_ = Some (Returns (chunks, token)) ->
        ends_increasing chunks).
Proof.
  unfold planned.
  destruct (delta_periods frequency (end_ - start)) as [[periods token]|e].
  - split.
    + intros Hlimit.
      destruct (plan_chunks_ends limit start end_ periods Hlimit)
        as (fuel & chunks & Hplan).
      exists fuel. rewrite Hplan. eauto.
    + intros fuel chunks token'.
      destruct (plan_chunks fuel limit start end_ periods) as [l|] eqn:Hplan;
        [|discriminate].
      intros [= <- _]. eapply plan_chunks_increasing, Hplan.
  - split; [exists O; eauto | discriminate].
Qed.

Lemma planned_ends_increasing_witness :
  0 <= 3
  /\ planned 3 "minute" 3 0 (10 * minute)
     = Some (Returns ([mkChunk (6 * minute) 3; mkChunk (10 * minute) 3], "1m"%string))
  /\ ends_increasing [mkChunk (6 * minute) 3; mkChunk (10 * minute) 3].
Proof.
  assert (H : planned 3 "minute" 3 0 (10 * minute)
              = Some (Returns ([mkChunk (6 * minute) 3; mkChunk (10 * minute) 3],
                               "1m"%string)))
    by (vm_compute; reflexivity).
  split; [lia|]. split; [exact H|].
  exact (proj2 (planned_ends_increasing "minute" 3 0 (10 * minute)) _ _ _ H).
Defined.





(** C8, the code on the scenario of the specification: daily bars from
    day 0 to day 5 with a limit of 2. The period count is 5 days, yet the
    walk goes back in steps of 3 minutes and every window is 2 minutes
    long: 2400 chunks are planned, where day-long periods give 3. *)
Lemma daily_plan_walks_in_minutes :
  delta_periods "daily" (5 * day - 0)
  = Returns (((5 * day # 1000000000) / 60 / 60 / 24)%Q, "1d"%string)
  /\ exists chunks,
      planned 2401 "daily" 2 0 (5 * day) = Some (Returns (chunks, "1d"%string))
      /\ length chunks = 2400%nat
      /\ forallb (fun c => chunk_end_ c - chunk_start_of c =? 2 * minute) chunks = true
      /\ nth_error chunks 2399 = Some (mkChunk (5 * day) 2)
      /\ nth_error chunks 2398 = Some (mkChunk (5 * day - 3 * minute) 2).
Proof.
  split; [reflexivity|].
  exists (rev (map (nth_chunk (5 * day) 2) (seq 0 2400))).
  assert (Hmem : forall c,
             In c (rev (map (nth_chunk (5 * day) 2) (seq 0 2400))) ->
             exists k, c = nth_chunk (5 * day) 2 k).
  { intros c Hc. apply in_rev, in_map_iff in Hc as (k & <- & _). eauto. }
  split; [|split; [|split; [|split]]].
  - unfold planned.
    change (delta_periods "daily" (5 * day - 0))
      with (Returns ((total_seconds (5 * day - 0) / 60 / 60 / 24)%Q, "1d"%string)).
    unfold plan_chunks.
    replace (Qle_bool (total_seconds (5 * day - 0) / 60 / 60 / 24) (inject_Z 2))
      with false by (vm_compute; reflexivity).
    cbn [negb].
    replace (floor_1min (5 * day)) with (5 * day) by (vm_compute; reflexivity).
    rewrite (chunk_loop_run 0 2 2400 (5 * day) []);
      [reflexivity | intros k Hk; unfold day, minute; lia
      | unfold day, minute; lia].
  - now rewrite length_rev, length_map, length_seq.
  - apply forallb_forall. intros c Hc. apply Hmem in Hc as (k & ->).
    unfold chunk_start_of, nth_chunk. cbn [chunk_end_ bar_count].
    rewrite timedelta_minutes_int. apply Z.eqb_eq. lia.
  - vm_compute. reflexivity.
  - vm_compute. reflexivity.
Qed.

End PlanTheorems.

(** ** Reconciliation *)

Module ReconcilerFacts.

Section Walk.

Variable asset_candles : list Candle.

Lemma minute_at_0 (cs : Z) : minute_at cs 0 = cs.
Proof. unfold minute_at. simpl. lia. Qed.

Lemma minute_at_S (cs : Z) (k : nat) :
  minute_at cs (S k) = minute_at (cs + minute) k.
Proof. unfold minute_at. lia. Qed.

Lemma minute_at_lt (cs : Z) (i j : nat) :
  (i < j)%nat -> minute_at cs i < minute_at cs j.
Proof. unfold minute_at, minute. lia. Qed.

Lemma minute_at_inj (cs : Z) (i j : nat) :
  minute_at cs i = minute_at cs j -> i = j.
Proof. unfold minute_at, minute. lia. Qed.

Lemma carried_shift (cs : Z) (previous : option Candle) (k : nat) :
  carried asset_candles cs previous (S k)
  = carried asset_candles (cs + minute)
      (next_candle asset_candles cs previous) k.
Proof.
  induction k as [|k IH].
  - simpl. now rewrite minute_at_0.
  - change (carried asset_candles cs previous (S (S k)))
      with (next_candle asset_candles (minute_at cs (S k))
              (carried asset_candles cs previous (S k))).
    rewrite IH, minute_at_S. reflexivity.
Qed.

Lemma flat_map_seq_shift {A : Type} (f : nat -> list A) (a n : nat) :
  flat_map f (seq (S a) n) = flat_map (fun k => f (S k)) (seq a n).
Proof.
  revert a. induction n as [|n IH]; intros a; simpl; [reflexivity|].
  now rewrite IH.
Qed.

Lemma dense_S (cs : Z) (previous : option Candle) (n : nat) :
  dense asset_candles cs previous (S n)
  = match next_candle asset_candles cs previous with
    | Some candle => [(cs, candle)]
    | None => []
    end
    ++ dense asset_candles (cs + minute)
         (next_candle asset_candles cs previous) n.
Proof.
  unfold dense.
  change (seq 0 (S n)) with (O :: seq 1 n).
  simpl flat_map at 1. rewrite flat_map_seq_shift. f_equal.
  - change (carried asset_candles cs previous 1)
      with (next_candle asset_candles (minute_at cs 0) previous).
    now rewrite !minute_at_0.
  - apply flat_map_ext. intros k.
    now rewrite carried_shift, minute_at_S.
Qed.

Lemma carried_S_some (cs : Z) (previous : option Candle) (k : nat) :
  is_Some (carried asset_candles cs previous k) ->
  is_Some (carried asset_candles cs previous (S k)).
Proof.
  intros [c Hc]. simpl. rewrite Hc. unfold next_candle.
  destruct (List.find _ asset_candles); eauto.
Qed.

Lemma carried_some (cs : Z) (candle : Candle) (k : nat) :
  is_Some (carried asset_candles cs (Some candle) k).
Proof.
  induction k as [|k IH]; [simpl; eauto | now apply carried_S_some].
Qed.

(** The walk appends the dense rows and leaves the last known candle in
    the dict. *)
Lemma walk_dense (key : Z) (ce : Z) :
  forall (n fuel : nat) (date : Z) (all_dates : list Z)
         (all_candles : list Candle) (previous_candle : gmap Z Candle),
    n = walk_length date ce ->
    (n < fuel)%nat ->
    walk fuel key asset_candles ce date all_dates all_candles previous_candle
    = Some (all_dates ++ map fst (dense asset_candles date (previous_candle !! key) n),
            all_candles ++ map snd (dense asset_candles date (previous_candle !! key) n),
            match carried asset_candles date (previous_candle !! key) n with
            | Some candle => <[key := candle]> previous_candle
            | None => previous_candle
            end).
Proof.
  assert (Hlen : forall date, date <= ce ->
             walk_length date ce = S (walk_length (date + minute) ce)).
  { intros date Hle. unfold walk_length.
    replace (ce - (date + minute)) with ((ce - date) + (-1) * minute) by lia.
    rewrite Z.div_add by (unfold minute; lia).
    assert (0 <= (ce - date) / minute)
      by (apply Z.div_pos; unfold minute; lia).
    lia. }
  assert (Hzero : forall date, ce < date -> walk_length date ce = O).
  { intros date Hlt. unfold walk_length.
    assert ((ce - date) / minute < 0)
      by (apply Z.div_lt_upper_bound; unfold minute; lia).
    lia. }
  induction n as [|n IH]; intros [|fuel] date ad ac prev Hn Hfuel; try lia.
  - assert (Hgt : ce < date).
    { destruct (Z.lt_ge_cases ce date) as [|Hle]; [assumption|].
      rewrite (Hlen date) in Hn by lia. discriminate. }
    simpl. destruct (Z.leb_spec date ce); [lia|].
    rewrite !app_nil_r. do 2 f_equal.
    destruct (prev !! key) as [c|] eqn:Hp; [|reflexivity].
    now rewrite insert_id.
  - assert (Hle : date <= ce).
    { destruct (Z.lt_ge_cases ce date) as [Hlt|]; [|lia].
      rewrite (Hzero date Hlt) in Hn. discriminate. }
    rewrite (Hlen date Hle) in Hn. injection Hn as Hn.
    simpl walk. destruct (Z.leb_spec date ce); [|lia].
    rewrite dense_S, carried_shift.
    destruct (next_candle asset_candles date (prev !! key)) as [c|] eqn:Hnext.
    + rewrite (IH fuel (date + minute) _ _ _ Hn ltac:(lia)).
      rewrite lookup_insert_eq.
      rewrite <- !app_assoc. simpl. do 2 f_equal.
      destruct (carried_some (date + minute) c n) as [c' ->].
      now rewrite insert_insert_eq.
    + rewrite (IH fuel (date + minute) _ _ _ Hn ltac:(lia)).
      assert (Hp : prev !! key = None).
      { unfold next_candle in Hnext.
        destruct (List.find _ asset_candles); [discriminate|assumption]. }
      rewrite Hp. reflexivity.
Qed.


Lemma In_dense (cs : Z) (previous : option Candle) (n : nat)
    (row : Z * Candle) :
  In row (dense asset_candles cs previous n) ->
  exists k, (k < n)%nat /\ fst row = minute_at cs k
            /\ carried asset_candles cs previous (S k) = Some (snd row).
Proof.
  unfold dense. rewrite in_flat_map. intros (k & Hk & Hrow).
  apply in_seq in Hk.
  destruct (carried asset_candles cs previous (S k)) as [c|] eqn:Hc;
    [|destruct Hrow].
  destruct Hrow as [<-|[]]. exists k. simpl. repeat split; [lia|assumption].
Qed.

Lemma row_at_absent (df : DataFrame) (date : Z) :
  (forall row, In row df -> fst row <> date) -> row_at df date = None.
Proof.
  intros Hno. unfold row_at.
  destruct (List.find _ df) as [row|] eqn:Hfind; [|reflexivity].
  apply find_some in Hfind as [Hin Heq].
  apply Z.eqb_eq in Heq. now apply Hno in Hin.
Qed.

(** The row of the [k]-th minute is the candle known after that minute. *)
Lemma row_at_dense (n : nat) :
  forall (cs : Z) (previous : option Candle) (k : nat),
    (k < n)%nat ->
    row_at (dense asset_candles cs previous n) (minute_at cs k)
    = carried asset_candles cs previous (S k).
Proof.
  induction n as [|n IH]; intros cs previous k Hk; [lia|].
  rewrite dense_S. destruct k as [|k].
  - rewrite minute_at_0.
    change (carried asset_candles cs previous 1)
      with (next_candle asset_candles (minute_at cs 0) previous).
    rewrite minute_at_0.
    destruct (next_candle asset_candles cs previous) as [c|].
    + unfold row_at. simpl. now rewrite Z.eqb_refl.
    + simpl. apply row_at_absent. intros row Hrow.
      apply In_dense in Hrow as (j & _ & -> & _).
      unfold minute_at, minute. lia.
  - rewrite carried_shift, minute_at_S, <- IH by lia.
    destruct (next_candle asset_candles cs previous) as [c|];
      [|reflexivity].
    unfold row_at. simpl.
    destruct (Z.eqb_spec cs (minute_at (cs + minute) k)) as [Heq|];
      [|reflexivity].
    unfold minute_at, minute in Heq. lia.
Qed.

Lemma dense_increasing (n : nat) :
  forall (cs : Z) (previous : option Candle),
    StronglySorted (fun r1 r2 => fst r1 < fst r2)
      (dense asset_candles cs previous n).
Proof.
  induction n as [|n IH]; intros cs previous; [constructor|].
  rewrite dense_S.
  destruct (next_candle asset_candles cs previous) as [c|]; simpl;
    [|apply IH].
  constructor; [apply IH|].
  apply Forall_forall. intros row Hrow.
  apply list_elem_of_In, In_dense in Hrow as (j & _ & -> & _).
  simpl. unfold minute_at, minute. lia.
Qed.

End Walk.

Lemma insert_row_last (row : Z * Candle) (df : DataFrame) :
  Forall (fun r => fst r <= fst row) df -> insert_row row df = df ++ [row].
Proof.
  induction 1 as [|r df Hr _ IH]; [reflexivity|].
  simpl. destruct (Z.ltb_spec (fst row) (fst r)); [lia|]. now rewrite IH.
Qed.

Lemma sort_index_fold (df : DataFrame) :
  forall acc : DataFrame,
    StronglySorted (fun r1 r2 => fst r1 < fst r2) (acc ++ df) ->
    fold_left (fun sorted row => insert_row row sorted) df acc = acc ++ df.
Proof.
  induction df as [|row df IH]; intros acc Hsorted; simpl.
  - now rewrite app_nil_r.
  - rewrite insert_row_last.
    + rewrite IH; rewrite <- app_assoc; [reflexivity | exact Hsorted].
    + clear IH. induction acc as [|r acc IHacc]; [constructor|].
      simpl in Hsorted. apply StronglySorted_inv in Hsorted as [Hs Hall].
      constructor; [|now apply IHacc].
      rewrite Forall_forall in Hall.
      specialize (Hall row ltac:(apply list_elem_of_In, in_or_app; right; now left)).
      lia.
Qed.

(** Sorting a frame whose index already increases changes nothing. *)
Lemma sort_index_increasing (df : DataFrame) :
  StronglySorted (fun r1 r2 => fst r1 < fst r2) df -> sort_index df = df.
Proof. intros Hs. unfold sort_index. now rewrite sort_index_fold. Qed.

Lemma combine_fst_snd {A B : Type} (l : list (A * B)) :
  combine (map fst l) (map snd l) = l.
Proof.
  induction l as [|[a b] l IH]; [reflexivity|]. simpl. now rewrite IH.
Qed.

(** One turn of the asset loop, without the walk. *)
Lemma reconcile_asset_dense (cs ce : Z) (asset : Asset)
    (asset_candles : list Candle) (num : nat) (data : list (Z * DataFrame))
    (previous_candle : gmap Z Candle) :
  asset_candles <> [] ->
  let n := walk_length cs ce in
  let previous := previous_candle !! sid asset in
  let df := dense asset_candles cs previous n in
  let previous_candle' :=
    match carried asset_candles cs previous n with
    | Some candle => <[sid asset := candle]> previous_candle
    | None => previous_candle
    end in
  reconcile_asset cs ce asset asset_candles num data previous_candle
  = Some (match df with
          | [] => (num, data, previous_candle')
          | _ :: _ => ((num + length df)%nat, data ++ [(sid asset, df)],
                       previous_candle')
          end).
Proof.
  intros Hne n previous df previous_candle'.
  unfold reconcile_asset. destruct asset_candles as [|c0 cs0]; [congruence|].
  rewrite (walk_dense (c0 :: cs0) (sid asset) ce n);
    [|reflexivity|unfold walk_fuel, n, walk_length; lia].
  simpl app. rewrite combine_fst_snd.
  fold previous. fold df. fold previous_candle'.
  destruct df as [|row rows] eqn:Hdf; [reflexivity|].
  rewrite <- Hdf. rewrite sort_index_increasing; [reflexivity|].
  apply dense_increasing.
Qed.

Lemma series_of_dense (cs ce : Z) (asset : Asset)
    (asset_candles : list Candle) (previous_candle : gmap Z Candle) :
  asset_candles <> [] ->
  series_of cs ce asset asset_candles previous_candle
  = dense asset_candles cs (previous_candle !! sid asset) (walk_length cs ce).
Proof.
  intros Hne. unfold series_of.
  rewrite reconcile_asset_dense by assumption.
  now destruct (dense _ _ _ _).
Qed.


Lemma carried_none (asset_candles : list Candle) (cs : Z)
    (previous : option Candle) (k : nat) :
  carried asset_candles cs previous k = None
  <-> previous = None
      /\ forall k', (k' < k)%nat ->
            fetched_at asset_candles (minute_at cs k') = None.
Proof.
  induction k as [|k IH]; simpl.
  - split; [intros ->; split; [reflexivity | intros k' Hk'; lia] | now intros [-> _]].
  - unfold next_candle. fold (fetched_at asset_candles (minute_at cs k)).
    destruct (fetched_at asset_candles (minute_at cs k)) as [c|] eqn:Hf.
    + split; [discriminate|]. intros [_ Hall].
      specialize (Hall k ltac:(lia)). congruence.
    + rewrite IH. split; intros [Hp Hall]; (split; [exact Hp|]);
        intros k' Hk'.
      * destruct (Nat.eq_dec k' k) as [->|]; [exact Hf | apply Hall; lia].
      * apply Hall. lia.
Qed.

Lemma walk_length_gt (cs ce : Z) (j : nat) :
  minute_at cs j <= ce -> (j < walk_length cs ce)%nat.
Proof.
  unfold minute_at, walk_length. intros Hle.
  assert (Z.of_nat j <= (ce - cs) / minute)
    by (apply Z.div_le_lower_bound; unfold minute in *; lia).
  lia.
Qed.

Lemma fetched_at_not_nil (asset_candles : list Candle) (t : Z) (c : Candle) :
  fetched_at asset_candles t = Some c -> asset_candles <> [].
Proof. now destruct asset_candles. Qed.

Lemma carried_fetched (asset_candles : list Candle) (cs : Z)
    (previous : option Candle) (k : nat) (c : Candle) :
  fetched_at asset_candles (minute_at cs k) = Some c ->
  carried asset_candles cs previous (S k) = Some c.
Proof.
  intros Hf. simpl. unfold next_candle.
  fold (fetched_at asset_candles (minute_at cs k)). now rewrite Hf.
Qed.

Lemma carried_missing (asset_candles : list Candle) (cs : Z)
    (previous : option Candle) (k : nat) :
  fetched_at asset_candles (minute_at cs k) = None ->
  carried asset_candles cs previous (S k)
  = carried asset_candles cs previous k.
Proof.
  intros Hf. simpl. unfold next_candle.
  fold (fetched_at asset_candles (minute_at cs k)). now rewrite Hf.
Qed.

(** X11. Forward fill on the minutes of the walk. When the candles
    fetched for an asset have a candle at [t_a] and a later one at [t_b], both among
    the minutes [chunk_start + k minutes] that the walk visits, and the
    minutes strictly between them are missing, the series handed to the
    writer for that asset has the candle fetched at [t_a] at [t_a] and at
    every missing minute up to [t_b], and the candle fetched at [t_b] at
    [t_b]. *)
Theorem forward_fill_between
    (chunk_start chunk_end : Z) (asset : Asset) (asset_candles : list Candle)
    (previous_candle : gmap Z Candle) (i j : nat) (ca cb : Candle) :
  (i < j)%nat ->
  minute_at chunk_start j <= chunk_end ->
  fetched_at asset_candles (minute_at chunk_start i) = Some ca ->
  fetched_at asset_candles (minute_at chunk_start j) = Some cb ->
  (forall k, (i < k < j)%nat ->
     fetched_at asset_candles (minute_at chunk_start k) = None) ->
  let df := series_of chunk_start chunk_end asset asset_candles previous_candle in
  (forall k, (i <= k < j)%nat -> row_at df (minute_at chunk_start k) = Some ca)
  /\ row_at df (minute_at chunk_start j) = Some cb
  /\ exists previous_candle',
       forall num data,
         reconcile_asset chunk_start chunk_end asset asset_candles num data
           previous_candle
         = Some ((num + length df)%nat, data ++ [(sid asset, df)],
                 previous_candle').
Proof.
  intros Hij Hend Ha Hb Hmissing df.
  pose proof (fetched_at_not_nil _ _ _ Ha) as Hne.
  pose proof (walk_length_gt _ _ _ Hend) as Hj.
  assert (Hdf : df = dense asset_candles chunk_start
                       (previous_candle !! sid asset)
                       (walk_length chunk_start chunk_end))
    by (apply series_of_dense; exact Hne).
  assert (Hfill : forall m, (i + m < j)%nat ->
             carried asset_candles chunk_start (previous_candle !! sid asset)
               (S (i + m)) = Some ca).
  { induction m as [|m IH]; intros Hm.
    - rewrite Nat.add_0_r. now apply carried_fetched.
    - replace (i + S m)%nat with (S (i + m)) by lia.
      rewrite carried_missing by (apply Hmissing; lia).
      apply IH. lia. }
  assert (Hrow_j : row_at df (minute_at chunk_start j) = Some cb).
  { rewrite Hdf, row_at_dense by exact Hj. now apply carried_fetched. }
  split; [|split].
  - intros k Hk. rewrite Hdf, row_at_dense by lia.
    replace k with (i + (k - i))%nat by lia. apply Hfill. lia.
  - exact Hrow_j.
  - eexists. intros num data.
    rewrite reconcile_asset_dense by exact Hne. cbv zeta.
    rewrite <- Hdf. destruct df as [|row rows]; [discriminate|reflexivity].
Qed.

Lemma carried_hold (asset_candles : list Candle) (cs : Z)
    (previous : option Candle) (a b : nat) :
  (a <= b)%nat ->
  (forall j, (a <= j < b)%nat ->
     fetched_at asset_candles (minute_at cs j) = None) ->
  carried asset_candles cs previous b = carried asset_candles cs previous a.
Proof.
  induction b as [|b IH]; intros Hab Hnone.
  - now replace a with O by lia.
  - destruct (Nat.eq_dec a (S b)) as [->|Hne]; [reflexivity|].
    rewrite carried_missing by (apply Hnone; lia).
    apply IH; [lia|]. intros j Hj. apply Hnone. lia.
Qed.

Lemma dense_dates_full (asset_candles : list Candle) (cs : Z)
    (previous : option Candle) (n : nat) :
  (forall k, (k < n)%nat ->
     is_Some (carried asset_candles cs previous (S k))) ->
  map fst (dense asset_candles cs previous n) = map (minute_at cs) (seq 0 n).
Proof.
  intros Hall. unfold dense.
  assert (Hin : forall k, In k (seq 0 n) ->
             is_Some (carried asset_candles cs previous (S k)))
    by (intros k Hk; apply in_seq in Hk; apply Hall; lia).
  clear Hall. induction (seq 0 n) as [|k l IH]; [reflexivity|].
  cbn [flat_map]. destruct (Hin k ltac:(now left)) as [c Hc]. rewrite Hc.
  cbn [app map fst]. f_equal. apply IH. intros k' Hk'. apply Hin. now right.
Qed.

(** C3, as the code has it. An asset for which zero candles were fetched
    is skipped: it hands no series to the writer, carried candle or not.
    For an asset with at least one fetched candle the row of a minute of
    the walk is the candle fetched at that minute; failing that, the
    candle fetched at the latest earlier minute of the chunk that has
    one; failing that, the last known candle carried into the chunk. So
    with a carried candle the series has one row at every minute of the
    walk, in order; and a minute is left out exactly when no candle is
    carried into the chunk and none was fetched at that minute or at an
    earlier minute of the chunk. *)
Theorem carried_candle_fills_fetched_chunk
    (chunk_start chunk_end : Z) (asset : Asset) (asset_candles : list Candle)
    (previous_candle : gmap Z Candle) :
  (forall num data,
     reconcile_asset chunk_start chunk_end asset [] num data previous_candle
     = Some (num, data, previous_candle))
  /\ series_of chunk_start chunk_end asset [] previous_candle = []
  /\ (asset_candles <> [] ->
      let df := series_of chunk_start chunk_end asset asset_candles
                  previous_candle in
      (forall k c,
         (k < walk_length chunk_start chunk_end)%nat ->
         fetched_at asset_candles (minute_at chunk_start k) = Some c ->
         row_at df (minute_at chunk_start k) = Some c)
      /\ (forall k' k c,
            (k' < k)%nat ->
            (k < walk_length chunk_start chunk_end)%nat ->
            fetched_at asset_candles (minute_at chunk_start k') = Some c ->
            (forall j, (k' < j <= k)%nat ->
               fetched_at asset_candles (minute_at chunk_start j) = None) ->
            row_at df (minute_at chunk_start k) = Some c)
      /\ (forall k candle,
            (k < walk_length chunk_start chunk_end)%nat ->
            previous_candle !! sid asset = Some candle ->
            (forall j, (j <= k)%nat ->
               fetched_at asset_candles (minute_at chunk_start j) = None) ->
            row_at df (minute_at chunk_start k) = Some candle)
      /\ (forall candle,
            previous_candle !! sid asset = Some candle ->
            map fst df
            = map (minute_at chunk_start)
                (seq 0 (walk_length chunk_start chunk_end)))
      /\ (forall candle k,
            previous_candle !! sid asset = Some candle ->
            (k < walk_length chunk_start chunk_end)%nat ->
            exists c, row_at df (minute_at chunk_start k) = Some c)
      /\ (forall k,
            (k < walk_length chunk_start chunk_end)%nat ->
            (row_at df (minute_at chunk_start k) = None
             <-> previous_candle !! sid asset = None
                 /\ forall k', (k' <= k)%nat ->
                       fetched_at asset_candles (minute_at chunk_start k')
                       = None))).
Proof.
  split; [reflexivity|]. split; [reflexivity|].
  intros Hne df.
  assert (Hdf : df = dense asset_candles chunk_start
                       (previous_candle !! sid asset)
                       (walk_length chunk_start chunk_end))
    by (apply series_of_dense; exact Hne).
  split; [|split; [|split; [|split; [|split]]]].
  - intros k c Hk Hf. rewrite Hdf, row_at_dense by exact Hk.
    now apply carried_fetched.
  - intros k' k c Hlt Hk Hf Hnone. rewrite Hdf, row_at_dense by exact Hk.
    rewrite (carried_hold _ _ _ (S k') (S k)) by (lia || (intros j Hj; apply Hnone; lia)).
    now apply carried_fetched.
  - intros k candle Hk Hprev Hnone. rewrite Hdf, row_at_dense by exact Hk.
    rewrite (carried_hold _ _ _ O (S k)) by (lia || (intros j Hj; apply Hnone; lia)).
    exact Hprev.
  - intros candle Hprev. rewrite Hdf. apply dense_dates_full.
    intros k _. rewrite Hprev. apply carried_some.
  - intros candle k Hprev Hk. rewrite Hdf, row_at_dense, Hprev by exact Hk.
    destruct (carried_some asset_candles chunk_start candle (S k)) as [c Hc].
    eauto.
  - intros k Hk. rewrite Hdf, row_at_dense, carried_none by exact Hk.
    split; intros [Hp Hall]; (split; [exact Hp|]); intros k' Hk';
      apply Hall; lia.
Qed.

Lemma forward_fill_between_witness :
  let df := series_of 0 (4 * minute) ListStore.asset_A
              [ListStore.c0; ListStore.c3] ∅ in
  (0 < 3)%nat
  /\ minute_at 0 3 <= 4 * minute
  /\ row_at df (minute_at 0 1) = Some ListStore.c0
  /\ row_at df (minute_at 0 2) = Some ListStore.c0
  /\ row_at df (minute_at 0 3) = Some ListStore.c3.
Proof.
  assert (H1 : (0 < 3)%nat) by lia.
  assert (H2 : minute_at 0 3 <= 4 * minute) by (vm_compute; discriminate).
  assert (Ha : fetched_at [ListStore.c0; ListStore.c3] (minute_at 0 0)
               = Some ListStore.c0) by reflexivity.
  assert (Hb : fetched_at [ListStore.c0; ListStore.c3] (minute_at 0 3)
               = Some ListStore.c3) by reflexivity.
  assert (Hm : forall k, (0 < k < 3)%nat ->
             fetched_at [ListStore.c0; ListStore.c3] (minute_at 0 k) = None).
  { intros k Hk. assert (Hcase : k = 1%nat \/ k = 2%nat) by lia.
    destruct Hcase as [->| ->]; reflexivity. }
  destruct (forward_fill_between 0 (4 * minute) ListStore.asset_A
              [ListStore.c0; ListStore.c3] ∅ 0 3 ListStore.c0 ListStore.c3
              H1 H2 Ha Hb Hm) as (Hfill & Hlast & _).
  intros df. split; [exact H1|]. split; [exact H2|].
  split; [apply Hfill; lia|]. split; [apply Hfill; lia | exact Hlast].
Defined.

(** The scenario of the specification: candles fetched at [t0] and [t3]
    only, window [t0..t4]. *)
Example forward_fill_scenario :
  series_of 0 (4 * minute) ListStore.asset_A [ListStore.c0; ListStore.c3] ∅
  = [(0, ListStore.c0); (1 * minute, ListStore.c0); (2 * minute, ListStore.c0);
     (3 * minute, ListStore.c3); (4 * minute, ListStore.c3)].
Proof. vm_compute. reflexivity. Qed.

Lemma carried_candle_fills_fetched_chunk_witness :
  [ListStore.c3] <> []
  /\ row_at (series_of 0 (4 * minute) ListStore.asset_A [ListStore.c3]
               {[ 1 := ListStore.c0 ]})
       (minute_at 0 1) = Some ListStore.c0
  /\ row_at (series_of 0 (4 * minute) ListStore.asset_A [ListStore.c3]
               {[ 1 := ListStore.c0 ]})
       (minute_at 0 4) = Some ListStore.c3.
Proof.
  assert (Hne : [ListStore.c3] <> []) by discriminate.
  split; [exact Hne|].
  destruct (carried_candle_fills_fetched_chunk 0 (4 * minute) ListStore.asset_A
              [ListStore.c3] {[ 1 := ListStore.c0 ]}) as (_ & _ & Hfilled).
  destruct (Hfilled Hne) as (_ & Hforward & Hcarried & _).
  split.
  - apply (Hcarried 1%nat ListStore.c0).
    + vm_compute. lia.
    + apply lookup_singleton_eq.
    + intros j Hj. assert (Hcase : j = 0%nat \/ j = 1%nat) by lia.
      destruct Hcase as [->| ->]; reflexivity.
  - apply (Hforward 3%nat 4%nat ListStore.c3).
    + lia.
    + vm_compute. lia.
    + reflexivity.
    + intros j Hj. replace j with 4%nat by lia. reflexivity.
Defined.

(** C3 as stated fails: asset A carries the candle [c0] from an earlier
    chunk, the later chunk fetches no candle for it, and the chunk hands
    no series for A to the writer: there is no row at its first minute. *)
Lemma carried_candle_without_fetch_gives_no_rows :
  reconcile 0 (2 * minute) [(ListStore.asset_A, [])] 0 []
    {[ 1 := ListStore.c0 ]}
  = Some (0%nat, [], {[ 1 := ListStore.c0 ]})
  /\ ~ carried_fills_every_minute.
Proof.
  split; [reflexivity|].
  intros Hclaim.
  apply (Hclaim 0 (2 * minute) ListStore.asset_A [] {[ 1 := ListStore.c0 ]}
           ListStore.c0 0%nat).
  - apply lookup_singleton_eq.
  - vm_compute. lia.
  - reflexivity.
Qed.

End ReconcilerFacts.

(** ** The checks and the write on a small store *)

Module StoreExamples.
Import ListStore.

Lemma check_data_exists_conservative_witness :
  [asset_A] <> []
  /\ fst (check_data_exists [asset_A] (1 * minute) (2 * minute) run_A)
     = Returns false.
Proof.
  assert (Hne : [asset_A] <> []) by discriminate.
  split; [exact Hne|].
  destruct (check_data_exists_conservative [asset_A] (1 * minute) (2 * minute)
              run_A Hne) as (_ & _ & Hmissing).
  apply (Hmissing tt asset_A).
  - reflexivity.
  - now left.
  - right. right. eexists. reflexivity.
Defined.

Lemma empty_chunk_is_skipped_witness :
  chunk_assets_of (chunk_end_ chunk_0_2) (assets (self run_B)) = []
  /\ exists st',
      ingest_chunk "1m" chunk_0_2 ∅ run_B = Some (Returns ∅, st')
      /\ trace st' = [Log Debug "the data chunk already exists"]
      /\ world st' = empty_disk.
Proof.
  assert (Hnone : chunk_assets_of (chunk_end_ chunk_0_2) (assets (self run_B))
                  = []) by reflexivity.
  split; [exact Hnone|].
  destruct (proj2 (empty_chunk_is_skipped "1m" chunk_0_2 ∅ run_B) Hnone)
    as (st' & Hstep & Htrace & Hworld & _).
  exists st'. split; [exact Hstep|]. split; [exact Htrace | exact Hworld].
Defined.

Lemma overlapping_write_is_not_fatal_witness :
  exists data previous_candle' st3 st4,
    reaches_write "1m" chunk_0_2 ∅ run_A = Some (data, previous_candle', st3)
    /\ write_raises data st3 BcolzMinuteOverlappingData
    /\ ingest_chunks "1m" [chunk_0_2] ∅ run_A = Some (Returns tt, st4)
    /\ last (trace st4) = Some (Log Warn "chunk already exists {}: {}").
Proof.
  assert (Hr : exists data previous_candle' st3,
             reaches_write "1m" chunk_0_2 ∅ run_A
             = Some (data, previous_candle', st3)
             /\ write_raises data st3 BcolzMinuteOverlappingData).
  { eexists _, _, _. split; [reflexivity|].
    right. exists tt. split; reflexivity. }
  destruct Hr as (data & previous_candle' & st3 & Hr & Hw).
  destruct (overlapping_write_is_not_fatal "1m" chunk_0_2 [] ∅
              previous_candle' run_A st3 data Hr Hw)
    as (st4 & _ & Hlast & _ & Hloop).
  exists data, previous_candle', st3, st4.
  split; [exact Hr|]. split; [exact Hw|]. split; [exact Hloop | exact Hlast].
Defined.

(** C2, the code on a range half a minute off the minute: from 0:00:30
    to 0:04:30 with a limit of 10, candles fetched at 0:01:00 and 0:03:00,
    none at 0:02:00. The single chunk keeps the unfloored start, so the
    walk visits 0:00:30, 0:01:30, ... and meets no candle: the series is
    empty and the run writes no row at all, where the claim has the candle
    of 0:01:00 at 0:01:00 and 0:02:00 and that of 0:03:00 at 0:03:00. The
    same candles on a range that starts on the minute are filled as the
    claim says; the multi-chunk branch floors the end to the minute
    ([self.end.floor('1 min')]), the single-chunk branch does not. *)
Theorem unaligned_start_drops_fetched_candles :
  (exists chunk,
     planned 1 "minute" 10 half_minute (4 * minute + half_minute)
     = Some (Returns ([chunk], "1m"%string))
     /\ chunk_start_of chunk = half_minute
     /\ chunk_end_ chunk = 4 * minute + half_minute)
  /\ fetched_at [c1; c3] (1 * minute) = Some c1
  /\ fetched_at [c1; c3] (2 * minute) = None
  /\ fetched_at [c1; c3] (3 * minute) = Some c3
  /\ series_of half_minute (4 * minute + half_minute) asset_A [c1; c3] ∅ = []
  /\ (exists st',
        ingest 1 run_unaligned = Some (Returns tt, st')
        /\ List.filter is_fetch (trace st')
           = [FetchCall [asset_A] "1m" (4 * minute + half_minute)
                (total_seconds (4 * minute) / 60)]
        /\ List.filter is_write (trace st') = [WriteCall []])
  /\ series_of 0 (4 * minute) asset_A [c1; c3] ∅
     = [(1 * minute, c1); (2 * minute, c1); (3 * minute, c3); (4 * minute, c3)].
Proof.
  split.
  { eexists. split; [vm_compute; reflexivity|]. split; vm_compute; reflexivity. }
  split; [reflexivity|]. split; [reflexivity|]. split; [reflexivity|].
  split; [vm_compute; reflexivity|].
  split; [|vm_compute; reflexivity].
  eexists. split; [reflexivity|]. split; reflexivity.
Qed.

End StoreExamples.

(** ** More on range resolution *)

Module RangeResolverMore.
Import RangeResolverFacts.

(** X1. A resolved range lies inside the requested one and is never
    empty: the start is not moved back, the end is not moved forward, and
    the start is strictly before the end. *)
Theorem get_adj_dates_narrows
    (now : Timestamp) (assets : list Asset) (start end_ start' end' : Timestamp) :
  get_adj_dates now assets start end_ = Returns (start', end') ->
  start <= start' /\ end' <= end_ /\ start' < end'.
Proof.
  unfold get_adj_dates. cbv zeta.
  destruct (earliest_trade_of assets) as [e|]; [|discriminate].
  match goal with
  | |- context [?a <=? ?b] => destruct (Z.leb_spec a b) as [Hle|Hlt]
  end; [discriminate|].
  intros Heq. injection Heq as <- <-.
  revert Hlt.
  destruct (Z.ltb_spec now end_), (Z.ltb_spec start e); lia.
Qed.

Lemma get_adj_dates_narrows_witness :
  get_adj_dates 100 [ListStore.asset_A] (-4) 200 = Returns (0, 100)
  /\ -4 <= 0 /\ 100 <= 200 /\ 0 < 100.
Proof.
  assert (H : get_adj_dates 100 [ListStore.asset_A] (-4) 200 = Returns (0, 100))
    by reflexivity.
  split; [exact H|].
  exact (get_adj_dates_narrows 100 [ListStore.asset_A] (-4) 200 0 100 H).
Defined.

(** X2. Resolving a resolved range again, at the same or a later time and
    for the same assets, gives it back unchanged. *)
Theorem get_adj_dates_stable
    (now now' : Timestamp) (assets : list Asset)
    (start end_ start' end' : Timestamp) :
  get_adj_dates now assets start end_ = Returns (start', end') ->
  now <= now' ->
  get_adj_dates now' assets start' end' = Returns (start', end').
Proof.
  intros Hres Hnow.
  unfold get_adj_dates in Hres |- *. cbv zeta in *.
  destruct (earliest_trade_of assets) as [e|]; [|discriminate].
  match type of Hres with
  | context [?a <=? ?b] => destruct (Z.leb_spec a b) as [Hle|Hlt]
  end; [discriminate|].
  injection Hres as <- <-.
  repeat match goal with
         | |- context [?a <? ?b] => destruct (Z.ltb_spec a b)
         | H : context [?a <? ?b] |- _ => destruct (Z.ltb_spec a b)
         end;
    match goal with
    | |- context [?a <=? ?b] => destruct (Z.leb_spec a b)
    end; try reflexivity; lia.
Qed.


Lemma get_adj_dates_stable_witness :
  get_adj_dates 100 [ListStore.asset_A] (-4) 200 = Returns (0, 100)
  /\ 100 <= 150
  /\ get_adj_dates 150 [ListStore.asset_A] 0 100 = Returns (0, 100).
Proof.
  assert (H : get_adj_dates 100 [ListStore.asset_A] (-4) 200 = Returns (0, 100))
    by reflexivity.
  assert (Hnow : 100 <= 150) by lia.
  split; [exact H|]. split; [exact Hnow|].
  exact (get_adj_dates_stable 100 150 [ListStore.asset_A] (-4) 200 0 100 H Hnow).
Defined.

Lemma is_earliest_perm (e : Timestamp) (assets assets' : list Asset) :
  Permutation assets assets' -> is_earliest e assets -> is_earliest e assets'.
Proof.
  intros Hperm [Hin Hall]. split.
  - eapply Permutation_in; [|exact Hin]. now apply Permutation_map.
  - eapply Permutation_Forall; eassumption.
Qed.

Lemma earliest_trade_of_perm (assets assets' : list Asset) :
  Permutation assets assets' ->
  earliest_trade_of assets = earliest_trade_of assets'.
Proof.
  intros Hperm.
  destruct (earliest_trade_of assets) as [e|] eqn:He.
  - apply earliest_trade_of_some in He. symmetry.
    apply earliest_trade_of_is_earliest. eapply is_earliest_perm; eassumption.
  - destruct assets as [|a l].
    + apply Permutation_nil in Hperm. now subst.
    + destruct (earliest_trade_of_cons a l) as (m & Hm & _). congruence.
Qed.

(** X3. The order in which the exchange lists the assets does not matter
    to the resolved range. *)
Theorem get_adj_dates_order_free
    (now : Timestamp) (assets assets' : list Asset) (start end_ : Timestamp) :
  Permutation assets assets' ->
  get_adj_dates now assets start end_ = get_adj_dates now assets' start end_.
Proof.
  intros Hperm. unfold get_adj_dates.
  now rewrite (earliest_trade_of_perm _ _ Hperm).
Qed.

Lemma get_adj_dates_order_free_witness :
  Permutation [ListStore.asset_A; ListStore.asset_B]
    [ListStore.asset_B; ListStore.asset_A]
  /\ get_adj_dates 100 [ListStore.asset_A; ListStore.asset_B] (-4) 200
     = get_adj_dates 100 [ListStore.asset_B; ListStore.asset_A] (-4) 200.
Proof.
  assert (H : Permutation [ListStore.asset_A; ListStore.asset_B]
                [ListStore.asset_B; ListStore.asset_A]) by apply perm_swap.
  split; [exact H|].
  exact (get_adj_dates_order_free 100 _ _ (-4) 200 H).
Defined.

End RangeResolverMore.

(** ** More on the handles and the existence check *)

Section HandleFacts.

Context `{C : Collaborators}.

Lemma same_config_refl (b : ExchangeBundle) : same_config b b.
Proof. repeat split. Qed.

Lemma same_config_trans (b1 b2 b3 : ExchangeBundle) :
  same_config b1 b2 -> same_config b2 b3 -> same_config b1 b3.
Proof.
  unfold same_config. intros (?&?&?&?&?) (?&?&?&?&?).
  repeat split; congruence.
Qed.

(** What one access to [reader] leaves behind. *)
Lemma reader_frame (st : Run) :
  world (snd (reader st)) = world st
  /\ same_config (self st) (self (snd (reader st)))
  /\ _writer (self (snd (reader st))) = _writer (self st)
  /\ exists logs, trace (snd (reader st)) = trace st ++ logs
                  /\ forallb is_log logs = true.
Proof.
  unfold reader.
  destruct (_reader (self st)) as [r|].
  { simpl. repeat split. exists []. now rewrite app_nil_r. }
  destruct (supported (data_frequency (self st))).
  2:{ simpl. repeat split. exists []. now rewrite app_nil_r. }
  destruct (open_reader (data_frequency (self st)) (world st)); simpl.
  - repeat split. exists []. now rewrite app_nil_r.
  - repeat split. eexists. split; reflexivity.
Qed.

(** X4. The two handles are bound once. After [reader] has returned a
    reader, and after [writer] has returned a writer, a later access
    returns the same handle without opening anything, whatever the store
    has become meanwhile. *)
Theorem handles_are_cached (st : Run) :
  (forall r st', reader st = (Returns (Some r), st') ->
     world st' = world st
     /\ forall w tr, reader (mkRun (self st') w tr)
                     = (Returns (Some r), mkRun (self st') w tr))
  /\ (forall w st', writer st = (Returns w, st') ->
        forall wd tr, writer (mkRun (self st') wd tr)
                      = (Returns w, mkRun (self st') wd tr)).
Proof.
  split.
  - intros r st'. unfold reader.
    destruct (_reader (self st)) as [r0|] eqn:Hr.
    + intros [= -> <-]. split; [reflexivity|]. intros w tr. simpl.
      now rewrite Hr.
    + destruct (supported (data_frequency (self st))); [|discriminate].
      destruct (open_reader (data_frequency (self st)) (world st));
        [|discriminate].
      intros [= -> <-]. split; reflexivity.
  - intros w st'. unfold writer.
    destruct (_writer (self st)) as [w0|] eqn:Hw.
    + intros [= -> <-] wd tr. simpl. now rewrite Hw.
    + destruct (supported (data_frequency (self st))); [|discriminate].
      destruct (open_writer _ _ _ _) as [[w1|e] wd1]; [|discriminate].
      intros [= -> <-]. reflexivity.
Qed.

(** A failed binding is not remembered: the next access tries again. *)
Lemma failed_handles_are_not_cached (st : Run) :
  (fst (reader st) = Returns None -> _reader (self (snd (reader st))) = None)
  /\ (forall e, fst (writer st) = Raises e ->
        _writer (self (snd (writer st))) = None).
Proof.
  split.
  - unfold reader. destruct (_reader (self st)) as [r0|] eqn:Hr;
      [discriminate|].
    destruct (supported (data_frequency (self st))); [|discriminate].
    destruct (open_reader (data_frequency (self st)) (world st));
      [discriminate|]. now simpl.
  - intros e. unfold writer. destruct (_writer (self st)) eqn:Hw;
      [discriminate|].
    destruct (supported (data_frequency (self st))); [|now simpl].
    destruct (open_writer _ _ _ _) as [[w1|e1] wd1]; [discriminate|].
    now simpl.
Qed.

Lemma check_loop_frame (assets : list Asset) (start end_ : Timestamp) :
  forall (has_data : bool) (st : Run),
    let st' := snd (check_loop assets start end_ has_data st) in
    world st' = world st
    /\ same_config (self st) (self st')
    /\ _writer (self st') = _writer (self st)
    /\ exists logs, trace st' = trace st ++ logs
                    /\ forallb is_log logs = true.
Proof.
  induction assets as [|a rest IH]; intros has_data st; simpl.
  { repeat split. exists []. now rewrite app_nil_r. }
  destruct has_data; [|apply IH].
  pose proof (reader_frame st) as (Hw & Hc & Hwr & logs & Ht & Hl).
  destruct (reader st) as [[[r|]|e] st1]; simpl in *.
  - destruct (IH (endpoints_present r (world st1) a start end_) st1)
      as (Hw' & Hc' & Hwr' & logs' & Ht' & Hl').
    split; [congruence|]. split; [eapply same_config_trans; eassumption|].
    split; [congruence|]. exists (logs ++ logs').
    rewrite Ht', Ht, <- app_assoc. split; [reflexivity|].
    now rewrite forallb_app, Hl, Hl'.
  - destruct (IH false st1) as (Hw' & Hc' & Hwr' & logs' & Ht' & Hl').
    split; [congruence|]. split; [eapply same_config_trans; eassumption|].
    split; [congruence|]. exists (logs ++ logs').
    rewrite Ht', Ht, <- app_assoc. split; [reflexivity|].
    now rewrite forallb_app, Hl, Hl'.
  - split; [exact Hw|]. split; [exact Hc|]. split; [exact Hwr|].
    exists logs. auto.
Qed.

(** X5. The existence check only reads: it leaves the world and the
    configuration of the bundle as they were, binds no writer, and adds
    nothing but log lines to the trace (no fetch, no write). *)
Theorem check_data_exists_only_reads
    (assets : list Asset) (start end_ : Timestamp) (st : Run) :
  let st' := snd (check_data_exists assets start end_ st) in
  world st' = world st
  /\ same_config (self st) (self st')
  /\ _writer (self st') = _writer (self st)
  /\ calls (trace st') = calls (trace st)
  /\ exists logs, trace st' = trace st ++ logs /\ forallb is_log logs = true.
Proof.
  intros st'.
  destruct (check_loop_frame assets start end_ true st)
    as (Hw & Hc & Hwr & logs & Ht & Hl).
  fold (check_data_exists assets start end_ st) in *. fold st' in Hw, Hc, Hwr, Ht.
  split; [exact Hw|]. split; [exact Hc|]. split; [exact Hwr|]. split.
  - rewrite Ht. unfold calls. rewrite List.filter_app.
    assert (Hnone : List.filter (fun e => is_fetch e || is_write e) logs = []).
    { clear Ht. induction logs as [|e logs IHl]; [reflexivity|].
      simpl in Hl. apply andb_true_iff in Hl as [He Hl].
      destruct e; try discriminate. simpl. now apply IHl. }
    now rewrite Hnone, app_nil_r.
  - exists logs. auto.
Qed.

(** X6. The check of a list is the conjunction of the checks of its
    parts: it gives true for [l1 ++ l2] exactly when it gives true for
    [l1] and for [l2]. *)
Theorem check_data_exists_app
    (l1 l2 : list Asset) (start end_ : Timestamp) (st : Run) :
  fst (check_data_exists (l1 ++ l2) start end_ st) = Returns true
  <-> fst (check_data_exists l1 start end_ st) = Returns true
      /\ fst (check_data_exists l2 start end_ st) = Returns true.
Proof.
  unfold check_data_exists. rewrite !check_loop_value. unfold check_value.
  destruct l1 as [|a1 l1]; simpl.
  { destruct l2; tauto. }
  destruct (fst (reader st)) as [[r|]|e].
  - rewrite forallb_app. simpl.
    destruct (endpoints_present r (world st) a1 start end_); simpl.
    2:{ split; [discriminate | intros [[=] _]]. }
    destruct (forallb _ l1); simpl.
    2:{ split; [discriminate | intros [[=] _]]. }
    destruct l2 as [|a2 l2]; [tauto|]. tauto.
  - split; [discriminate | intros [[=] _]].
  - split; [discriminate | intros [[=] _]].
Qed.

(** X7. With at least one asset, no reader bound yet and a frequency that
    is neither minute nor daily, the check does not answer: it raises the
    [ValueError] of the [reader] property, and changes nothing. *)
Theorem check_data_exists_unsupported
    (assets : list Asset) (start end_ : Timestamp) (st : Run) :
  assets <> [] ->
  _reader (self st) = None ->
  supported (data_frequency (self st)) = false ->
  check_data_exists assets start end_ st
  = (Raises (ValueError "invalid frequency {}"), st).
Proof.
  intros Hne Hr Hs. destruct assets as [|a rest]; [congruence|].
  unfold check_data_exists. simpl. unfold reader. now rewrite Hr, Hs.
Qed.

End HandleFacts.

(** ** More on chunk planning *)

Module PlannerMore.
Import PlannerFacts.

Lemma planned_minute (fuel : nat) (limit start end_ : Z) :
  planned fuel "minute" limit start end_
  = match plan_chunks fuel limit start end_
            (total_seconds (end_ - start) / 60) with
    | Some l => Some (Returns (l, "1m"%string))
    | None => None
    end.
Proof. reflexivity. Qed.

Lemma periods_minute_gt (limit start end_ : Z) :
  limit * minute < end_ - start ->
  Qle_bool (total_seconds (end_ - start) / 60) (inject_Z limit) = false.
Proof.
  intros Hbig.
  destruct (Qle_bool _ (inject_Z limit)) eqn:Hq; [|reflexivity].
  apply Qle_bool_iff in Hq.
  apply (proj1 (periods_minute_le (end_ - start) limit)) in Hq. lia.
Qed.


Lemma floor_1min_aligned (t : Z) : (minute | floor_1min t).
Proof. exists (t / minute). reflexivity. Qed.

Lemma plan_chunks_within (fuel : nat) (limit start end_ : Z) (periods : Q)
    (chunks : list Chunk) :
  plan_chunks fuel limit start end_ periods = Some chunks ->
  Forall (fun c => (bar_count c <= inject_Z limit)%Q) chunks.
Proof.
  intros Hplan. destruct (Qle_bool periods (inject_Z limit)) eqn:Hq.
  - rewrite plan_chunks_single in Hplan by exact Hq. injection Hplan as <-.
    constructor; [|constructor]. simpl. now apply Qle_bool_iff.
  - apply plan_chunks_multi in Hplan as (n & -> & _); [|exact Hq].
    apply Forall_forall. intros c Hc.
    apply list_elem_of_In, in_rev, in_map_iff in Hc as (k & <- & _).
    simpl. apply Qle_refl.
Qed.

(** X8. Whatever the frequency, no planned chunk asks for more bars than
    the limit of the exchange. *)
Theorem planned_within_limit
    (fuel : nat) (frequency token : string) (limit start end_ : Z)
    (chunks : list Chunk) :
  planned fuel frequency limit start end_ = Some (Returns (chunks, token)) ->
  Forall (fun c => (bar_count c <= inject_Z limit)%Q) chunks.
Proof.
  unfold planned.
  destruct (delta_periods frequency (end_ - start)) as [[periods tok]|e];
    [|discriminate].
  destruct (plan_chunks fuel limit start end_ periods) as [l|] eqn:Hplan;
    [|discriminate].
  intros [= <- _]. eapply plan_chunks_within, Hplan.
Qed.

Lemma planned_within_limit_witness :
  planned 3 "minute" 3 0 (10 * minute)
  = Some (Returns ([mkChunk (6 * minute) 3; mkChunk (10 * minute) 3], "1m"%string))
  /\ Forall (fun c => (bar_count c <= inject_Z 3)%Q)
       [mkChunk (6 * minute) 3; mkChunk (10 * minute) 3].
Proof.
  assert (H : planned 3 "minute" 3 0 (10 * minute)
              = Some (Returns ([mkChunk (6 * minute) 3; mkChunk (10 * minute) 3],
                               "1m"%string)))
    by (vm_compute; reflexivity).
  split; [exact H|].
  exact (planned_within_limit 3 "minute" "1m" 3 0 (10 * minute) _ H).
Defined.

(** X9. In the multi-chunk branch every chunk ends and starts on a whole
    minute, whatever the range: the walk of the reconciler then visits
    whole minutes only. *)
Theorem multi_chunks_minute_aligned
    (fuel : nat) (limit start end_ : Z) (chunks : list Chunk) :
  planned fuel "minute" limit start end_ = Some (Returns (chunks, "1m"%string)) ->
  limit * minute < end_ - start ->
  Forall (fun c => (minute | chunk_end_ c) /\ (minute | chunk_start_of c)) chunks.
Proof.
  rewrite planned_minute.
  destruct (plan_chunks _ _ _ _ _) as [l|] eqn:Hplan; [|discriminate].
  intros [= <-] Hbig.
  apply plan_chunks_multi in Hplan as (n & -> & _);
    [|now apply periods_minute_gt].
  apply Forall_forall. intros c Hc.
  apply list_elem_of_In, in_rev, in_map_iff in Hc as (k & <- & _).
  unfold chunk_start_of, nth_chunk. simpl. rewrite timedelta_minutes_int.
  destruct (floor_1min_aligned end_) as [q Hq]. rewrite Hq. split.
  - exists (q - Z.of_nat k * (limit + 1)). lia.
  - exists (q - Z.of_nat k * (limit + 1) - limit). lia.
Qed.

Lemma multi_chunks_minute_aligned_witness :
  planned 3 "minute" 3 7 (10 * minute + 5)
  = Some (Returns ([mkChunk (6 * minute) 3; mkChunk (10 * minute) 3], "1m"%string))
  /\ 3 * minute < 10 * minute + 5 - 7
  /\ Forall (fun c => (minute | chunk_end_ c) /\ (minute | chunk_start_of c))
       [mkChunk (6 * minute) 3; mkChunk (10 * minute) 3].
Proof.
  assert (H : planned 3 "minute" 3 7 (10 * minute + 5)
              = Some (Returns ([mkChunk (6 * minute) 3; mkChunk (10 * minute) 3],
                               "1m"%string)))
    by (vm_compute; reflexivity).
  assert (Hbig : 3 * minute < 10 * minute + 5 - 7) by (vm_compute; reflexivity).
  split; [exact H|]. split; [exact Hbig|].
  exact (multi_chunks_minute_aligned 3 3 7 (10 * minute + 5) _ H Hbig).
Defined.




End PlannerMore.

(** ** More on reconciliation *)

Module ReconcilerMore.
Import ReconcilerFacts.

Lemma walk_length_le (cs ce : Z) (k : nat) :
  (k < walk_length cs ce)%nat -> minute_at cs k <= ce.
Proof.
  unfold walk_length, minute_at. intros Hk.
  pose proof (Z.mul_div_le (ce - cs) minute ltac:(unfold minute; lia)) as Hm.
  remember ((ce - cs) / minute) as x eqn:Hx. clear Hx.
  assert (Hle : Z.of_nat k <= x) by lia.
  unfold minute in *. nia.
Qed.

Lemma carried_mono (asset_candles : list Candle) (cs : Z)
    (previous : option Candle) (a b : nat) :
  (a <= b)%nat ->
  is_Some (carried asset_candles cs previous a) ->
  is_Some (carried asset_candles cs previous b).
Proof.
  induction 1 as [|b _ IH]; [auto|].
  intros Ha. apply carried_S_some, IH, Ha.
Qed.

(** Where a carried candle comes from: it was carried in, or it was
    fetched at an earlier minute of this walk. *)
Lemma carried_origin (asset_candles : list Candle) (cs : Z)
    (previous : option Candle) (k : nat) (c : Candle) :
  carried asset_candles cs previous k = Some c ->
  previous = Some c
  \/ exists j, (j < k)%nat
               /\ fetched_at asset_candles (minute_at cs j) = Some c.
Proof.
  induction k as [|k IH]; simpl; [now left|].
  unfold next_candle. fold (fetched_at asset_candles (minute_at cs k)).
  destruct (fetched_at asset_candles (minute_at cs k)) as [c'|] eqn:Hf.
  - intros [= <-]. right. exists k. split; [lia|exact Hf].
  - intros Hc. destruct (IH Hc) as [Hp|(j & Hj & Hfj)]; [now left|].
    right. exists j. split; [lia|exact Hfj].
Qed.

Lemma fetched_at_some (asset_candles : list Candle) (t : Z) (c : Candle) :
  fetched_at asset_candles t = Some c ->
  In c asset_candles /\ last_traded c = t.
Proof.
  unfold fetched_at. intros Hf. apply find_some in Hf as [Hin Heq].
  split; [exact Hin | now apply Z.eqb_eq].
Qed.

Lemma dense_length (asset_candles : list Candle) (cs : Z)
    (previous : option Candle) (n : nat) :
  (length (dense asset_candles cs previous n) <= n)%nat.
Proof.
  unfold dense.
  assert (Hlen : forall l : list nat,
             (length (flat_map
                        (fun k =>
                           match carried asset_candles cs previous (S k) with
                           | Some candle => [(minute_at cs k, candle)]
                           | None => []
                           end) l) <= length l)%nat).
  { induction l as [|k l IH]; [simpl; lia|].
    cbn [flat_map]. rewrite length_app.
    destruct (carried asset_candles cs previous (S k)); simpl in *; lia. }
  specialize (Hlen (seq 0 n)). now rewrite length_seq in Hlen.
Qed.

Lemma series_of_nil (cs ce : Z) (asset : Asset)
    (previous_candle : gmap Z Candle) :
  series_of cs ce asset [] previous_candle = [].
Proof. reflexivity. Qed.

(** X12. The series is a dense ordered one: its index increases strictly,
    every index is a minute of the walk inside the window, and there are
    no more rows than minutes walked. *)
Theorem series_is_ordered_in_window
    (chunk_start chunk_end : Z) (asset : Asset) (asset_candles : list Candle)
    (previous_candle : gmap Z Candle) :
  let df := series_of chunk_start chunk_end asset asset_candles
              previous_candle in
  StronglySorted (fun r1 r2 => fst r1 < fst r2) df
  /\ Forall (fun r =>
               chunk_start <= fst r <= chunk_end
               /\ exists k, (k < walk_length chunk_start chunk_end)%nat
                            /\ fst r = minute_at chunk_start k) df
  /\ (length df <= walk_length chunk_start chunk_end)%nat.
Proof.
  intros df. unfold df. destruct asset_candles as [|c0 cs0].
  { rewrite series_of_nil. repeat split; [constructor|constructor|simpl; lia]. }
  rewrite series_of_dense by discriminate.
  split; [apply dense_increasing|]. split; [|apply dense_length].
  apply Forall_forall. intros r Hr.
  apply list_elem_of_In, In_dense in Hr as (k & Hk & Hfst & _).
  rewrite Hfst. split; [|eauto].
  split; [unfold minute_at, minute; lia | now apply walk_length_le].
Qed.

(** X13. Nothing is fabricated and nothing is taken from the future: the
    candle of a row is the candle carried into the chunk, or a candle
    fetched for this chunk and traded at a minute of the walk that is not
    after the row's own minute. *)
Theorem series_rows_are_observed
    (chunk_start chunk_end : Z) (asset : Asset) (asset_candles : list Candle)
    (previous_candle : gmap Z Candle) :
  Forall (fun r =>
            previous_candle !! sid asset = Some (snd r)
            \/ (In (snd r) asset_candles
                /\ chunk_start <= last_traded (snd r) <= fst r))
    (series_of chunk_start chunk_end asset asset_candles previous_candle).
Proof.
  destruct asset_candles as [|c0 cs0]; [rewrite series_of_nil; constructor|].
  rewrite series_of_dense by discriminate.
  apply Forall_forall. intros r Hr.
  apply list_elem_of_In, In_dense in Hr as (k & Hk & Hfst & Hc).
  apply carried_origin in Hc as [Hp|(j & Hj & Hf)]; [now left|].
  right. apply fetched_at_some in Hf as [Hin Ht].
  split; [exact Hin|]. rewrite Ht, Hfst.
  unfold minute_at, minute. lia.
Qed.

Lemma dense_nil (asset_candles : list Candle) (cs : Z)
    (previous : option Candle) (n : nat) :
  carried asset_candles cs previous n = None ->
  dense asset_candles cs previous n = [].
Proof.
  intros Hnone.
  destruct (dense asset_candles cs previous n) as [|r l] eqn:Hd;
    [reflexivity|].
  assert (Hr : In r (dense asset_candles cs previous n))
    by (rewrite Hd; now left).
  apply In_dense in Hr as (k & Hk & _ & Hc).
  destruct (carried_mono asset_candles cs previous (S k) n ltac:(lia))
    as [c Hc']; [eauto|congruence].
Qed.

Lemma dense_snoc (asset_candles : list Candle) (cs : Z)
    (previous : option Candle) (n : nat) :
  dense asset_candles cs previous (S n)
  = dense asset_candles cs previous n
    ++ match carried asset_candles cs previous (S n) with
       | Some candle => [(minute_at cs n, candle)]
       | None => []
       end.
Proof.
  unfold dense. rewrite seq_S, flat_map_app. cbn [flat_map].
  now rewrite app_nil_r.
Qed.

Lemma dense_last (asset_candles : list Candle) (cs : Z)
    (previous : option Candle) (n : nat) (row : Z * Candle) :
  last (dense asset_candles cs previous n) = Some row ->
  carried asset_candles cs previous n = Some (snd row).
Proof.
  destruct n as [|n]; [discriminate|].
  rewrite dense_snoc.
  destruct (carried asset_candles cs previous (S n)) as [c|] eqn:Hc.
  - rewrite last_snoc. now intros [= <-].
  - rewrite app_nil_r.
    assert (Hn : carried asset_candles cs previous n = None).
    { destruct (carried asset_candles cs previous n) as [c|] eqn:Hn;
        [|reflexivity].
      destruct (carried_S_some asset_candles cs previous n) as [c' Hc'];
        [eauto|congruence]. }
    now rewrite (dense_nil _ _ _ _ Hn).
Qed.

(** X14. What a turn of the asset loop does to the dict of last known
    candles: the entries of the other assets are untouched; the entry of
    the asset becomes the candle of the last row of its series, and
    nothing changes when the series is empty. *)
Theorem reconcile_asset_carries_last_row
    (chunk_start chunk_end : Z) (asset : Asset) (asset_candles : list Candle)
    (num num' : nat) (data data' : list (Z * DataFrame))
    (previous_candle previous_candle' : gmap Z Candle) :
  reconcile_asset chunk_start chunk_end asset asset_candles num data
    previous_candle = Some (num', data', previous_candle') ->
  (forall key, key <> sid asset ->
     previous_candle' !! key = previous_candle !! key)
  /\ match last (series_of chunk_start chunk_end asset asset_candles
                   previous_candle) with
     | Some row => previous_candle' !! sid asset = Some (snd row)
     | None => previous_candle' = previous_candle
     end.
Proof.
  destruct asset_candles as [|c0 cs0].
  { intros [= _ _ <-]. now rewrite series_of_nil. }
  rewrite series_of_dense by discriminate.
  rewrite reconcile_asset_dense by discriminate. cbv zeta.
  set (n := walk_length chunk_start chunk_end).
  set (p := previous_candle !! sid asset).
  intros Heq.
  assert (Hp : previous_candle'
               = match carried (c0 :: cs0) chunk_start p n with
                 | Some candle => <[sid asset := candle]> previous_candle
                 | None => previous_candle
                 end)
    by (destruct (dense (c0 :: cs0) chunk_start p n); now injection Heq).
  clear Heq. subst previous_candle'. split.
  - intros key Hkey.
    destruct (carried (c0 :: cs0) chunk_start p n); [|reflexivity].
    now rewrite lookup_insert_ne.
  - destruct (last (dense (c0 :: cs0) chunk_start p n)) as [row|] eqn:Hlast.
    + rewrite (dense_last _ _ _ _ _ Hlast). apply lookup_insert_eq.
    + apply last_None in Hlast.
      destruct (carried (c0 :: cs0) chunk_start p n) as [c|] eqn:Hc;
        [|reflexivity].
      destruct n as [|n'].
      * simpl in Hc. now apply insert_id.
      * rewrite dense_snoc, Hc in Hlast. now destruct (dense _ _ _ n').
Qed.

End ReconcilerMore.

Module ReconcileChunk.
Import ReconcilerFacts.


End ReconcileChunk.

(** ** More on the ingestion loop *)

Section IngestFacts.

Context `{C : Collaborators}.

Lemma calls_app (tr1 tr2 : list Event) :
  calls (tr1 ++ tr2) = calls tr1 ++ calls tr2.
Proof. apply List.filter_app. Qed.

Lemma calls_logs (logs : list Event) :
  forallb is_log logs = true -> calls logs = [].
Proof.
  induction logs as [|e logs IH]; [reflexivity|].
  simpl. intros Hl. apply andb_true_iff in Hl as [He Hl].
  destruct e; try discriminate. unfold calls. simpl. now apply IH.
Qed.

Lemma forallb_repeat_log (e : Event) (n : nat) :
  is_log e = true -> forallb is_log (repeat e n) = true.
Proof. intros He. induction n as [|n IH]; simpl; [reflexivity|]. now rewrite He. Qed.

Lemma writer_frame (st : Run) :
  same_config (self st) (self (snd (writer st)))
  /\ trace (snd (writer st)) = trace st.
Proof.
  unfold writer. destruct (_writer (self st)); [now split|].
  destruct (supported (data_frequency (self st))); [|now split].
  destruct (open_writer _ _ _ _) as [[w|e] wd]; now split.
Qed.

Lemma emit_logs_frame {A : Type} (e : Event) (l : list A) (st : Run) :
  let st' := fold_left (fun s _ => emit e s) l st in
  self st' = self st /\ world st' = world st
  /\ trace st' = trace st ++ repeat e (length l).
Proof.
  revert st. induction l as [|x l IH]; intros st; simpl.
  - now rewrite app_nil_r.
  - destruct (IH (emit e st)) as (Hs & Hw & Ht).
    rewrite Hs, Hw, Ht. simpl. now rewrite <- app_assoc.
Qed.

Lemma log_no_data_frame (candles : list (Asset * list Candle)) (st : Run) :
  self (log_no_data candles st) = self st
  /\ world (log_no_data candles st) = world st
  /\ exists logs, trace (log_no_data candles st) = trace st ++ logs
                  /\ forallb is_log logs = true.
Proof.
  unfold log_no_data. revert st.
  induction candles as [|[a cs] rest IH]; intros st; simpl.
  - repeat split. exists []. now rewrite app_nil_r.
  - destruct cs as [|c cs'].
    + destruct (IH (emit (Log Debug "no data: {symbols} on {exchange}, date {end}") st))
        as (Hs & Hw & logs & Ht & Hl).
      rewrite Hs, Hw, Ht. repeat split. eexists. simpl.
      rewrite <- app_assoc. split; [reflexivity|]. simpl. exact Hl.
    + apply IH.
Qed.

Lemma on_write_error_frame (e : exn) (st : Run) :
  self (snd (on_write_error e st)) = self st
  /\ exists logs, trace (snd (on_write_error e st)) = trace st ++ logs
                  /\ forallb is_log logs = true.
Proof.
  destruct e; simpl; split; try reflexivity;
    try (exists []; now rewrite app_nil_r).
  eexists. split; reflexivity.
Qed.

(** What the [try] of a chunk adds to the trace: log lines and at most
    one write, of the data it was given. *)
Lemma write_chunk_frame (data : list (Z * DataFrame)) (st : Run) :
  let st' := snd (write_chunk data st) in
  same_config (self st) (self st')
  /\ exists evs, trace st' = trace st ++ evs
                 /\ (calls evs = [] \/ calls evs = [WriteCall data]).
Proof.
  unfold write_chunk. cbv zeta.
  set (st0 := fold_left _ data _).
  assert (H0 : self st0 = self st
               /\ trace st0
                  = trace st
                    ++ Log Debug "writing {num_candles} candles from {start} to {end}"
                       :: repeat (Log Debug "data for sid {}") (length data)).
  { unfold st0.
    destruct (emit_logs_frame (Log Debug "data for sid {}") data
                (emit (Log Debug "writing {num_candles} candles from {start} to {end}") st))
      as (Hs & _ & Ht).
    rewrite Hs, Ht. simpl. now rewrite <- app_assoc. }
  destruct H0 as [Hs0 Ht0].
  assert (Hlogs0 : calls (Log Debug "writing {num_candles} candles from {start} to {end}"
                          :: repeat (Log Debug "data for sid {}") (length data)) = []).
  { apply calls_logs. simpl. now apply forallb_repeat_log. }
  set (L0 := Log Debug "writing {num_candles} candles from {start} to {end}"
             :: repeat (Log Debug "data for sid {}") (length data)) in *.
  assert (Hw1 : calls [WriteCall data] = [WriteCall data]) by reflexivity.
  destruct (writer_frame st0) as [Hc1 Ht1].
  destruct (writer st0) as [[w|e] st1]; cbn [fst snd] in Hc1, Ht1 |- *.
  - destruct (writer_write w data (world (emit (WriteCall data) st1)))
      as [[u|e] wd]; cbn [fst snd].
    + split; [now rewrite <- Hs0|].
      exists (L0 ++ [WriteCall data]). split.
      * cbn [trace set_world emit]. now rewrite Ht1, Ht0, <- app_assoc.
      * right. now rewrite calls_app, Hlogs0.
    + destruct (on_write_error_frame e
                  (set_world wd (emit (WriteCall data) st1)))
        as (Hs2 & logs & Ht2 & Hl2).
      rewrite Hs2, Ht2. split; [cbn [self set_world emit]; now rewrite <- Hs0|].
      exists (L0 ++ [WriteCall data] ++ logs). split.
      * cbn [trace set_world emit]. now rewrite Ht1, Ht0, <- !app_assoc.
      * right. now rewrite !calls_app, Hlogs0, Hw1, (calls_logs _ Hl2).
  - destruct (on_write_error_frame e st1) as (Hs2 & logs & Ht2 & Hl2).
    rewrite Hs2, Ht2. split; [now rewrite <- Hs0|].
    exists (L0 ++ logs). split.
    + now rewrite Ht1, Ht0, <- !app_assoc.
    + left. now rewrite calls_app, Hlogs0, (calls_logs _ Hl2).
Qed.

End IngestFacts.

Section RunFacts.

Context `{C : Collaborators}.

Lemma calls_calls (tr : list Event) : calls (calls tr) = calls tr.
Proof.
  unfold calls. induction tr as [|e tr IH]; [reflexivity|].
  simpl. destruct (is_fetch e || is_write e) eqn:He; [|exact IH].
  simpl. now rewrite He, IH.
Qed.

Lemma fetch_ends_app (tr1 tr2 : list Event) :
  fetch_ends (tr1 ++ tr2) = fetch_ends tr1 ++ fetch_ends tr2.
Proof. apply flat_map_app. Qed.

Lemma fetch_ends_calls (tr : list Event) : fetch_ends (calls tr) = fetch_ends tr.
Proof.
  unfold calls, fetch_ends. induction tr as [|e tr IH]; [reflexivity|].
  destruct e; simpl; now rewrite IH.
Qed.

Lemma filter_fetch_calls (tr : list Event) :
  List.filter is_fetch (calls tr) = List.filter is_fetch tr.
Proof.
  unfold calls. induction tr as [|e tr IH]; [reflexivity|].
  destruct e; simpl; now rewrite IH.
Qed.

Lemma filter_write_calls (tr : list Event) :
  List.filter is_write (calls tr) = List.filter is_write tr.
Proof.
  unfold calls. induction tr as [|e tr IH]; [reflexivity|].
  destruct e; simpl; now rewrite IH.
Qed.

Lemma fetch_within_calls (limit : Z) (all : list Asset) (tr : list Event) :
  Forall (fetch_within limit all) (calls tr) ->
  Forall (fetch_within limit all) tr.
Proof.
  unfold calls. induction tr as [|e tr IH]; [constructor|].
  destruct e; simpl; intros H.
  - constructor; [exact I | now apply IH].
  - apply Forall_cons in H as [He H]. constructor; [exact He | now apply IH].
  - apply Forall_cons in H as [He H]. constructor; [exact I | now apply IH].
Qed.

(** What the body of the chunk loop adds to the trace: log lines, at most
    one fetch, for the chunk and its listed assets, and after it at most
    one write. *)
Lemma ingest_chunk_frame (frequency : string) (chunk : Chunk)
    (previous_candle : gmap Z Candle) (st : Run)
    (res : Result (gmap Z Candle)) (st' : Run) :
  ingest_chunk frequency chunk previous_candle st = Some (res, st') ->
  same_config (self st) (self st')
  /\ exists evs,
      trace st' = trace st ++ evs
      /\ let fetch :=
           FetchCall (chunk_assets_of (chunk_end_ chunk) (assets (self st)))
             frequency (chunk_end_ chunk) (bar_count chunk) in
         calls evs = []
         \/ calls evs = [fetch]
         \/ exists data, calls evs = [fetch; WriteCall data].
Proof.
  unfold ingest_chunk. cbv zeta.
  set (A := chunk_assets_of (chunk_end_ chunk) (assets (self st))).
  set (F := FetchCall A frequency (chunk_end_ chunk) (bar_count chunk)).
  destruct (check_loop_frame A (chunk_start_of chunk) (chunk_end_ chunk) true st)
    as (_ & Hc1 & _ & logs1 & Ht1 & Hl1).
  fold (check_data_exists A (chunk_start_of chunk) (chunk_end_ chunk) st) in *.
  destruct (check_data_exists A (chunk_start_of chunk) (chunk_end_ chunk) st)
    as [[[|]|e] st1]; cbn [fst snd] in *.
  - intros [= <- <-]. split; [exact Hc1|].
    exists (logs1 ++ [Log Debug "the data chunk already exists"]).
    split; [cbn [trace emit]; now rewrite Ht1, <- app_assoc|].
    left. now rewrite calls_app, (calls_logs _ Hl1).
  - assert (HF : calls [F] = [F]) by reflexivity.
    destruct (fetch_candles_chunk A frequency (chunk_end_ chunk)
                (bar_count chunk) (world (emit F st1))) as [[candles|e] wd].
    + destruct (reconcile _ _ candles 0 [] previous_candle)
        as [[[n data] prev']|]; [|discriminate].
      set (st3 := log_no_data candles
                    (emit (Log Debug "requests counter {}")
                       (set_world wd (emit F st1)))).
      destruct (log_no_data_frame candles
                  (emit (Log Debug "requests counter {}")
                     (set_world wd (emit F st1))))
        as (Hs3 & _ & logs3 & Ht3 & Hl3).
      fold st3 in Hs3, Ht3. cbn [self trace emit set_world] in Hs3, Ht3.
      destruct (write_chunk_frame data st3) as (Hc4 & evs4 & Ht4 & Hcalls4).
      assert (Hout : forall st4,
                 snd (write_chunk data st3) = st4 ->
                 same_config (self st) (self st4)
                 /\ exists evs, trace st4 = trace st ++ evs
                     /\ (calls evs = [] \/ calls evs = [F]
                         \/ exists data0, calls evs = [F; WriteCall data0])).
      { intros st4 <-. split.
        - eapply same_config_trans; [exact Hc1|]. now rewrite <- Hs3.
        - exists (logs1 ++ [F] ++ (Log Debug "requests counter {}" :: logs3)
                  ++ evs4).
          split; [rewrite Ht4, Ht3, Ht1, <- !app_assoc; reflexivity|].
          assert (Hl3' : calls (Log Debug "requests counter {}" :: logs3) = [])
            by (apply calls_logs; exact Hl3).
          rewrite !calls_app, (calls_logs _ Hl1), HF, Hl3'.
          destruct Hcalls4 as [->| ->]; [right; left; reflexivity|].
          right. right. eexists. reflexivity. }
      destruct (write_chunk data st3) as [[u|e] st4];
        intros [= <- <-]; now apply Hout.
    + intros [= <- <-]. split; [exact Hc1|].
      exists (logs1 ++ [F]).
      split; [cbn [trace emit set_world]; now rewrite Ht1, <- app_assoc|].
      right. left. now rewrite calls_app, (calls_logs _ Hl1).
  - intros [= <- <-]. split; [exact Hc1|].
    exists logs1. split; [exact Ht1|]. left. now apply calls_logs.
Qed.

Lemma sublist_StronglySorted {A : Type} (R : A -> A -> Prop) (l1 l2 : list A) :
  sublist l1 l2 -> StronglySorted R l2 -> StronglySorted R l1.
Proof.
  induction 1 as [|x l1 l2 Hsub IH|x l1 l2 Hsub IH]; intros Hs.
  - constructor.
  - apply StronglySorted_inv in Hs as [Hs Hall]. constructor; [now apply IH|].
    rewrite Forall_forall in Hall |- *. intros y Hy. apply Hall.
    eapply elem_of_sublist; eassumption.
  - apply StronglySorted_inv in Hs as [Hs _]. now apply IH.
Qed.

(** The loop over the chunks: the fetches it adds to the trace follow the
    plan. *)
Lemma ingest_chunks_frame (frequency : string) (limit : Z)
    (chunks : list Chunk) :
  Forall (fun c => (bar_count c <= inject_Z limit)%Q) chunks ->
  forall (previous_candle : gmap Z Candle) (st : Run)
         (res : Result unit) (st' : Run),
    ingest_chunks frequency chunks previous_candle st = Some (res, st') ->
    same_config (self st) (self st')
    /\ exists evs,
        trace st' = trace st ++ evs
        /\ Forall (fetch_within limit (assets (self st))) evs
        /\ sublist (fetch_ends evs) (map chunk_end_ chunks)
        /\ (length (List.filter is_write evs)
            <= length (List.filter is_fetch evs))%nat.
Proof.
  induction 1 as [|chunk rest Hbars _ IH]; intros prev st res st'.
  - intros [= <- <-]. split; [apply same_config_refl|].
    exists []. rewrite app_nil_r. repeat split; constructor.
  - cbn [ingest_chunks].
    destruct (ingest_chunk frequency chunk prev st) as [[r1 st1]|] eqn:Hstep;
      [|discriminate].
    apply ingest_chunk_frame in Hstep as (Hc1 & evs1 & Ht1 & Hcalls1).
    cbv zeta in Hcalls1.
    set (F := FetchCall (chunk_assets_of (chunk_end_ chunk) (assets (self st)))
                frequency (chunk_end_ chunk) (bar_count chunk)) in *.
    assert (H1 : Forall (fetch_within limit (assets (self st))) evs1
                 /\ sublist (fetch_ends evs1) [chunk_end_ chunk]
                 /\ (length (List.filter is_write evs1)
                     <= length (List.filter is_fetch evs1))%nat).
    { rewrite <- (fetch_ends_calls evs1), <- (filter_write_calls evs1),
        <- (filter_fetch_calls evs1).
      split; [apply fetch_within_calls|];
        destruct Hcalls1 as [->|[->|[data ->]]]; simpl;
        repeat constructor; auto. }
    destruct H1 as (Hw1 & Hs1 & Hn1).
    destruct r1 as [prev1|e].
    + intros Hrest. apply IH in Hrest as (Hc2 & evs2 & Ht2 & Hw2 & Hs2 & Hn2).
      split; [eapply same_config_trans; eassumption|].
      exists (evs1 ++ evs2). split; [now rewrite Ht2, Ht1, <- app_assoc|].
      assert (Ha : assets (self st1) = assets (self st)) by apply Hc1.
      rewrite Ha in Hw2.
      split; [now apply Forall_app|]. split.
      * rewrite fetch_ends_app.
        change (map chunk_end_ (chunk :: rest))
          with ([chunk_end_ chunk] ++ map chunk_end_ rest).
        now apply sublist_app.
      * rewrite !List.filter_app, !length_app. lia.
    + intros [= <- <-]. split; [exact Hc1|].
      exists evs1. split; [exact Ht1|]. split; [exact Hw1|]. split; [|exact Hn1].
      change (map chunk_end_ (chunk :: rest))
        with ([chunk_end_ chunk] ++ map chunk_end_ rest).
      rewrite <- (app_nil_r (fetch_ends evs1)).
      apply sublist_app; [exact Hs1 | apply sublist_nil_l].
Qed.

End RunFacts.

Section RunTheorems.

Context `{C : Collaborators}.

Lemma ends_increasing_map (chunks : list Chunk) :
  ends_increasing chunks -> StronglySorted Z.lt (map chunk_end_ chunks).
Proof.
  induction 1 as [|c l _ IH Hall]; [constructor|].
  simpl. constructor; [exact IH|].
  rewrite Forall_forall in Hall. apply Forall_forall. intros t Ht.
  apply list_elem_of_In, in_map_iff in Ht as (c' & <- & Hc').
  apply Hall. now apply list_elem_of_In.
Qed.

(** X16. A run keeps to its plan. Whatever [ingest] gives (a return or a
    raise), it leaves the configuration of the bundle as it was, and every
    fetch it made asked for exactly the assets listed by the end of the
    fetch and for no more bars than the limit of the exchange; the ends of
    the fetches increase strictly, so no window is fetched before an
    older one; and there are never more writes than fetches. *)
Theorem ingest_fetches_follow_plan
    (fuel : nat) (st : Run) (res : Result unit) (st' : Run) :
  ingest fuel st = Some (res, st') ->
  same_config (self st) (self st')
  /\ exists evs,
      trace st' = trace st ++ evs
      /\ Forall (fetch_within (num_candles_limit (self st)) (assets (self st))) evs
      /\ StronglySorted Z.lt (fetch_ends evs)
      /\ (length (List.filter is_write evs)
          <= length (List.filter is_fetch evs))%nat.
Proof.
  unfold ingest, planned. cbv zeta. cbn [self emit].
  set (log := Log Debug _).
  destruct (delta_periods (data_frequency (self st))
              (end_ (self st) - start (self st))) as [[periods token]|e].
  2:{ intros [= <- <-]. split; [apply same_config_refl|].
      exists [log]. repeat split; repeat constructor. }
  destruct (plan_chunks fuel (num_candles_limit (self st)) (start (self st))
              (end_ (self st)) periods) as [chunks|] eqn:Hplan;
    [|discriminate].
  intros Hrun.
  apply (ingest_chunks_frame token (num_candles_limit (self st))) in Hrun
    as (Hc & evs & Ht & Hw & Hs & Hn);
    [|eapply PlannerMore.plan_chunks_within, Hplan].
  cbn [self trace emit] in Hc, Ht, Hw.
  split; [exact Hc|].
  exists (log :: evs). split; [now rewrite Ht, <- app_assoc|].
  split; [constructor; [exact I|exact Hw]|]. split.
  - cbn [fetch_ends flat_map app]. fold (fetch_ends evs).
    eapply sublist_StronglySorted; [exact Hs|].
    apply ends_increasing_map.
    eapply PlannerFacts.plan_chunks_increasing, Hplan.
  - exact Hn.
Qed.

(** X17. A chunk whose data the check finds present is skipped whole: nothing
    is fetched or written, the world is untouched, and the last known
    candles are handed on as they were (they are not refreshed from the
    store). *)
Theorem present_chunk_is_skipped
    (frequency : string) (chunk : Chunk) (previous_candle : gmap Z Candle)
    (st : Run) :
  fst (check_data_exists
         (chunk_assets_of (chunk_end_ chunk) (assets (self st)))
         (chunk_start_of chunk) (chunk_end_ chunk) st) = Returns true ->
  exists st',
    ingest_chunk frequency chunk previous_candle st
    = Some (Returns previous_candle, st')
    /\ world st' = world st
    /\ calls (trace st') = calls (trace st).
Proof.
  intros Hcheck. unfold ingest_chunk. cbv zeta.
  destruct (check_loop_frame
              (chunk_assets_of (chunk_end_ chunk) (assets (self st)))
              (chunk_start_of chunk) (chunk_end_ chunk) true st)
    as (Hw & _ & _ & logs & Ht & Hl).
  fold (check_data_exists
          (chunk_assets_of (chunk_end_ chunk) (assets (self st)))
          (chunk_start_of chunk) (chunk_end_ chunk) st) in *.
  destruct (check_data_exists _ _ _ st) as [r st1]. cbn [fst snd] in *.
  subst r. eexists. split; [reflexivity|]. cbn [world trace emit].
  split; [exact Hw|].
  rewrite Ht, !calls_app, (calls_logs _ Hl). now rewrite !app_nil_r.
Qed.

(** X18. A fetch that raises ends the run there: the error is handed to the
    caller, nothing is written for the chunk and no later chunk is
    tried. *)
Theorem fetch_error_aborts
    (frequency : string) (chunk : Chunk) (rest : list Chunk)
    (previous_candle : gmap Z Candle) (st st1 : Run) (e : exn) (wd : World) :
  let chunk_assets := chunk_assets_of (chunk_end_ chunk) (assets (self st)) in
  check_data_exists chunk_assets (chunk_start_of chunk) (chunk_end_ chunk) st
  = (Returns false, st1) ->
  fetch_candles_chunk chunk_assets frequency (chunk_end_ chunk)
    (bar_count chunk) (world st1) = (Raises e, wd) ->
  exists st',
    ingest_chunks frequency (chunk :: rest) previous_candle st
    = Some (Raises e, st')
    /\ world st' = wd
    /\ List.filter is_write (trace st') = List.filter is_write (trace st)
    /\ fetch_ends (trace st') = fetch_ends (trace st) ++ [chunk_end_ chunk].
Proof.
  intros A Hcheck Hfetch. cbn [ingest_chunks]. unfold ingest_chunk. cbv zeta.
  fold A.
  destruct (check_loop_frame A (chunk_start_of chunk) (chunk_end_ chunk) true st)
    as (_ & _ & _ & logs & Ht & Hl).
  fold (check_data_exists A (chunk_start_of chunk) (chunk_end_ chunk) st) in Ht.
  rewrite Hcheck in Ht |- *. cbn [snd world emit] in Ht |- *.
  rewrite Hfetch. eexists. split; [reflexivity|]. cbn [world trace set_world emit].
  split; [reflexivity|]. rewrite Ht.
  assert (Hcalls : calls logs = []) by now apply calls_logs.
  set (F := FetchCall A frequency (chunk_end_ chunk) (bar_count chunk)).
  split.
  - rewrite !List.filter_app.
    rewrite <- (filter_write_calls logs), Hcalls. simpl.
    now rewrite !app_nil_r.
  - rewrite !fetch_ends_app.
    rewrite <- (fetch_ends_calls logs), Hcalls. simpl.
    now rewrite app_nil_r.
Qed.

(** X19. Only the overlapping-write condition is swallowed: the [try] of a
    chunk never lets it out, and when the write raises anything else the
    run ends with that error. *)
Theorem other_write_error_aborts
    (frequency : string) (chunk : Chunk) (rest : list Chunk)
    (previous_candle previous_candle' : gmap Z Candle) (st st3 : Run)
    (data : list (Z * DataFrame)) (e : exn) :
  reaches_write frequency chunk previous_candle st
  = Some (data, previous_candle', st3) ->
  write_raises data st3 e ->
  e <> BcolzMinuteOverlappingData ->
  fst (write_chunk data st3) = Raises e
  /\ exists st4,
      ingest_chunks frequency (chunk :: rest) previous_candle st
      = Some (Raises e, st4).
Proof.
  intros Hreach Hraise Hne.
  assert (Herr : forall s, on_write_error e s = (Raises e, s))
    by (intros s; destruct e; try reflexivity; congruence).
  assert (Hw : exists st4, write_chunk data st3 = (Raises e, st4)).
  { unfold write_raises, write_chunk in *. cbv zeta in *.
    set (st0 := fold_left _ data _) in *.
    destruct (writer st0) as [[w|e0] st1]; cbn [fst snd] in *.
    - destruct Hraise as [[=]|(w' & [= <-] & Hraise)].
      cbn [world emit] in *.
      destruct (writer_write w data (world st1)) as [[u|e1] wd];
        cbn [fst] in Hraise; [discriminate|].
      injection Hraise as ->. rewrite Herr. eauto.
    - destruct Hraise as [[= ->]|(w' & [=] & _)]. rewrite Herr. eauto. }
  destruct Hw as (st4 & Hw). split; [now rewrite Hw|].
  exists st4. cbn [ingest_chunks].
  rewrite (reaches_write_ingest_chunk _ _ _ _ _ _ _ Hreach), Hw. reflexivity.
Qed.

(** X20. A frequency that is neither minute nor daily is refused before
    anything is planned or asked of a collaborator, whatever the fuel:
    [ingest] logs its first line and raises. *)
Theorem ingest_unsupported_frequency (fuel : nat) (st : Run) :
  supported (data_frequency (self st)) = false ->
  ingest fuel st
  = Some (Raises (ValueError "frequency not supported"),
          emit (Log Debug "ingesting trading pairs {symbols} on exchange {exchange} from {start} to {end}") st).
Proof.
  unfold supported. intros Hs. apply orb_false_iff in Hs as [Hm Hd].
  unfold ingest, planned, delta_periods. cbn [self emit].
  now rewrite Hm, Hd.
Qed.

End RunTheorems.

(** ** Symbols and construction *)

Module SymbolFacts.

Lemma split_not_nil (sep : Ascii.ascii) (s : string) : str_split sep s <> [].
Proof.
  destruct s as [|c rest]; simpl; [discriminate|].
  destruct (Ascii.eqb c sep); [discriminate|].
  destruct (str_split sep rest); discriminate.
Qed.

Lemma join_cons (sep part : string) (rest : list string) :
  rest <> [] -> str_join sep (part :: rest) = part +:+ sep +:+ str_join sep rest.
Proof. destruct rest; [congruence|reflexivity]. Qed.

(** Splitting on a character and joining on it again gives the string
    back, and no part holds the character. *)
Lemma join_split (sep : Ascii.ascii) (s : string) :
  str_join (String sep EmptyString) (str_split sep s) = s
  /\ Forall (fun part => has_char sep part = false) (str_split sep s).
Proof.
  induction s as [|c rest [IHj IHf]]; [simpl; repeat constructor|].
  cbn [str_split]. destruct (Ascii.eqb c sep) eqn:Hc.
  - apply Ascii.eqb_eq in Hc as ->. split.
    + rewrite join_cons by apply split_not_nil. simpl. now rewrite IHj.
    + constructor; [reflexivity|exact IHf].
  - pose proof (split_not_nil sep rest) as Hne.
    destruct (str_split sep rest) as [|word words]; [congruence|].
    apply Forall_cons in IHf as [Hw Hws]. split.
    + destruct words as [|w2 ws].
      * simpl in *. now rewrite IHj.
      * rewrite join_cons in IHj |- * by discriminate.
        change (String c (word +:+ String sep EmptyString
                          +:+ str_join (String sep EmptyString) (w2 :: ws))
                = String c rest).
        now rewrite IHj.
    + constructor; [simpl; now rewrite Hc, Hw | exact Hws].
Qed.

Lemma cachpath_append (symbol type_ : string) :
  _cachpath symbol type_ = symbol +:+ String "-" type_.
Proof. reflexivity. Qed.

(** X21. Two cache paths are equal only for the same symbol and the same type,
    as long as the symbols hold no dash. *)
Theorem cachpath_injective (s1 t1 s2 t2 : string) :
  has_char "-"%char s1 = false ->
  has_char "-"%char s2 = false ->
  _cachpath s1 t1 = _cachpath s2 t2 ->
  s1 = s2 /\ t1 = t2.
Proof.
  rewrite !cachpath_append. revert s2.
  induction s1 as [|c1 r1 IH]; intros [|c2 r2]; simpl.
  - intros _ _ [= ->]. now split.
  - intros _ H2 [= <- _]. simpl in H2. discriminate.
  - intros H1 _ [= -> _]. simpl in H1. discriminate.
  - intros H1 H2 [= <- Hrest].
    apply orb_false_iff in H1 as [_ H1]. apply orb_false_iff in H2 as [_ H2].
    destruct (IH r2 H1 H2 Hrest) as [-> ->]. now split.
Qed.

Lemma cachpath_injective_witness :
  has_char "-"%char "btc_usd" = false
  /\ _cachpath "btc_usd" "minute" = "btc_usd-minute"%string
  /\ ("btc_usd"%string = "btc_usd"%string /\ "minute"%string = "minute"%string).
Proof.
  assert (H : has_char "-"%char "btc_usd" = false) by reflexivity.
  split; [exact H|]. split; [reflexivity|].
  exact (cachpath_injective "btc_usd" "minute" "btc_usd" "minute" H H eq_refl).
Defined.

End SymbolFacts.

Section ConstructionFacts.

Context `{E : Exchange} `{C : Collaborators}.

(** X22. The names [get_assets] asks the exchange for are the parts of
    [include_symbols] between its commas: none holds a comma, and joined
    by commas they give [include_symbols] back. *)
Theorem get_assets_asks_for_the_parts
    (symbols : string) (exclude_symbols : option string) :
  exists names,
    get_assets (Some symbols) exclude_symbols
    = exchange_get_assets (Some names)
    /\ str_join "," names = symbols
    /\ Forall (fun name => has_char ","%char name = false) names
    /\ names <> [].
Proof.
  exists (str_split ","%char symbols). split; [reflexivity|].
  destruct (SymbolFacts.join_split ","%char symbols) as [Hj Hf].
  split; [exact Hj|]. split; [exact Hf|]. apply SymbolFacts.split_not_nil.
Qed.

Lemma chunk_assets_listed (chunk_end : Z) (assets : list Asset) (a : Asset) :
  In a assets -> start_date a <= chunk_end ->
  chunk_assets_of chunk_end assets <> [].
Proof.
  intros Hin Hle Hnil.
  assert (Ha : In a (chunk_assets_of chunk_end assets)).
  { apply filter_In. split; [exact Hin | now apply Z.leb_le]. }
  rewrite Hnil in Ha. destruct Ha.
Qed.

(** X23. A bundle that [__init__] has built starts strictly before it ends,
    ends by [now], has no handle bound yet, and every chunk planned for it
    has at least one asset listed by the chunk's end: in its runs no chunk
    is skipped for want of assets. *)
Theorem init_gives_a_plannable_bundle
    (now : Timestamp) (frequency : string)
    (include_symbols exclude_symbols : option string)
    (start0 end0 : Timestamp) (b : ExchangeBundle) :
  init now frequency include_symbols exclude_symbols start0 end0
  = Returns b ->
  start b < end_ b
  /\ start0 <= start b
  /\ end_ b <= now
  /\ _reader b = None
  /\ _writer b = None
  /\ forall fuel chunks token,
       planned fuel (data_frequency b) (num_candles_limit b)
         (start b) (end_ b) = Some (Returns (chunks, token)) ->
       Forall (fun c => chunk_assets_of (chunk_end_ c) (assets b) <> []) chunks.
Proof.
  unfold init. cbv zeta.
  destruct (get_adj_dates now (get_assets include_symbols exclude_symbols)
              start0 end0) as [[s e]|err] eqn:Hres; [|discriminate].
  intros [= <-]. cbn [start end_ _reader _writer assets num_candles_limit
                       data_frequency].
  unfold get_adj_dates in Hres. cbv zeta in Hres.
  destruct (earliest_trade_of (get_assets include_symbols exclude_symbols))
    as [m|] eqn:Hm; [|discriminate].
  apply RangeResolverFacts.earliest_trade_of_some in Hm as [Hin Hall].
  apply in_map_iff in Hin as (a & Ha & Hin).
  match type of Hres with
  | context [?x <=? ?y] => destruct (Z.leb_spec x y) as [Hle|Hlt]
  end; [discriminate|].
  injection Hres as <- <-.
  assert (Hs : m <= (if start0 <? m then m else start0)
               /\ start0 <= (if start0 <? m then m else start0))
    by (destruct (Z.ltb_spec start0 m); lia).
  assert (He : (if now <? end0 then now else end0) <= now)
    by (destruct (Z.ltb_spec now end0); lia).
  split; [exact Hlt|]. split; [apply Hs|]. split; [exact He|].
  split; [reflexivity|]. split; [reflexivity|].
  intros fuel chunks token. unfold planned.
  destruct (delta_periods _ _) as [[periods tok]|err]; [|discriminate].
  destruct (plan_chunks _ _ _ _ _) as [l|] eqn:Hplan; [|discriminate].
  intros [= <- _].
  set (s := if start0 <? m then m else start0) in *.
  set (e := if now <? end0 then now else end0) in *.
  assert (Hends : Forall (fun c => s < chunk_end_ c) l).
  { destruct (Qle_bool periods (inject_Z exchange_num_candles_limit)) eqn:Hq.
    - rewrite PlannerFacts.plan_chunks_single in Hplan by exact Hq.
      injection Hplan as <-. repeat constructor. exact Hlt.
    - apply PlannerFacts.plan_chunks_multi in Hplan as (n & -> & Hin' & Hout);
        [|exact Hq].
      apply Forall_forall. intros c Hc.
      apply list_elem_of_In, in_rev, in_map_iff in Hc as (k & <- & Hk).
      apply in_seq in Hk.
      pose proof (Hin' k ltac:(lia)) as Hk'.
      pose proof (Hin' O ltac:(lia)) as H0.
      unfold nth_chunk. cbn [chunk_end_].
      assert (0 <= exchange_num_candles_limit)
        by (unfold minute in *; nia).
      unfold minute in *. lia. }
  eapply Forall_impl; [exact Hends|].
  intros c Hc. apply (chunk_assets_listed _ _ a Hin).
  destruct Hs as [Hs _]. simpl in Hc. rewrite Ha. lia.
Qed.

End ConstructionFacts.

(** ** The statements above on concrete runs *)

Module RunExamples.
Import ListStore.

Lemma handles_are_cached_witness :
  exists st',
    reader run_A = (Returns (Some tt), st')
    /\ forall w tr,
         reader (mkRun (self st') w tr)
         = (Returns (Some tt), mkRun (self st') w tr).
Proof.
  eexists. split; [reflexivity|].
  exact (proj2 (proj1 (handles_are_cached run_A) tt _ eq_refl)).
Defined.

Lemma check_data_exists_unsupported_witness :
  [asset_A] <> []
  /\ _reader (self run_hourly) = None
  /\ supported (data_frequency (self run_hourly)) = false
  /\ check_data_exists [asset_A] 0 (2 * minute) run_hourly
     = (Raises (ValueError "invalid frequency {}"), run_hourly).
Proof.
  assert (H1 : [asset_A] <> []) by discriminate.
  assert (H2 : _reader (self run_hourly) = None) by reflexivity.
  assert (H3 : supported (data_frequency (self run_hourly)) = false)
    by reflexivity.
  split; [exact H1|]. split; [exact H2|]. split; [exact H3|].
  exact (check_data_exists_unsupported [asset_A] 0 (2 * minute) run_hourly
           H1 H2 H3).
Defined.

Lemma reconcile_asset_carries_last_row_witness :
  exists num' data' previous_candle',
    reconcile_asset 0 (4 * minute) asset_A [c0; c3] 0 [] ∅
    = Some (num', data', previous_candle')
    /\ (forall key, key <> sid asset_A ->
          previous_candle' !! key = (∅ : gmap Z Candle) !! key)
    /\ match last (series_of 0 (4 * minute) asset_A [c0; c3] ∅) with
       | Some row => previous_candle' !! sid asset_A = Some (snd row)
       | None => previous_candle' = ∅
       end.
Proof.
  assert (Hr : exists num' data' previous_candle',
             reconcile_asset 0 (4 * minute) asset_A [c0; c3] 0 [] ∅
             = Some (num', data', previous_candle'))
    by (eexists _, _, _; reflexivity).
  destruct Hr as (num' & data' & previous_candle' & Hr).
  exists num', data', previous_candle'. split; [exact Hr|].
  exact (ReconcilerMore.reconcile_asset_carries_last_row _ _ _ _ _ _ _ _ _ _ Hr).
Defined.

Lemma ingest_fetches_follow_plan_witness :
  exists res st' evs,
    ingest 4 run_A = Some (res, st')
    /\ trace st' = trace run_A ++ evs
    /\ Forall (fetch_within 2 [asset_A]) evs
    /\ StronglySorted Z.lt (fetch_ends evs).
Proof.
  assert (Hs : match ingest 4 run_A with Some _ => true | None => false end
               = true) by (vm_compute; reflexivity).
  assert (Hr : exists res st', ingest 4 run_A = Some (res, st')).
  { destruct (ingest 4 run_A) as [[res st']|]; [eauto|discriminate Hs]. }
  clear Hs.
  destruct Hr as (res & st' & Hr).
  destruct (ingest_fetches_follow_plan 4 run_A res st' Hr)
    as (_ & evs & Ht & Hw & Hs & _).
  exists res, st', evs. split; [exact Hr|]. split; [exact Ht|].
  split; [exact Hw | exact Hs].
Defined.

Lemma present_chunk_is_skipped_witness :
  fst (check_data_exists
         (chunk_assets_of (chunk_end_ chunk_0_2) (assets (self run_present)))
         (chunk_start_of chunk_0_2) (chunk_end_ chunk_0_2) run_present)
  = Returns true
  /\ exists st',
      ingest_chunk "1m" chunk_0_2 ∅ run_present = Some (Returns ∅, st')
      /\ world st' = world run_present
      /\ calls (trace st') = calls (trace run_present).
Proof.
  assert (H : fst (check_data_exists
                     (chunk_assets_of (chunk_end_ chunk_0_2)
                        (assets (self run_present)))
                     (chunk_start_of chunk_0_2) (chunk_end_ chunk_0_2)
                     run_present) = Returns true)
    by (vm_compute; reflexivity).
  split; [exact H|].
  exact (present_chunk_is_skipped "1m" chunk_0_2 ∅ run_present H).
Defined.

Lemma fetch_error_aborts_witness :
  exists st1 st',
    check_data_exists [asset_A] (chunk_start_of chunk_0_2)
      (chunk_end_ chunk_0_2) Scripted.run_down = (Returns false, st1)
    /\ ingest_chunks "1m" [chunk_0_2; mkChunk (5 * minute) 2] ∅ Scripted.run_down
       = Some (Raises (OtherError "exchange down"), st')
    /\ List.filter is_write (trace st') = []
    /\ fetch_ends (trace st') = [2 * minute].
Proof.
  assert (Hc : exists st1,
             check_data_exists
               (chunk_assets_of (chunk_end_ chunk_0_2)
                  (assets (self Scripted.run_down)))
               (chunk_start_of chunk_0_2) (chunk_end_ chunk_0_2)
               Scripted.run_down = (Returns false, st1))
    by (eexists; reflexivity).
  destruct Hc as (st1 & Hc).
  destruct (fetch_error_aborts "1m" chunk_0_2 [mkChunk (5 * minute) 2] ∅
              Scripted.run_down st1 (OtherError "exchange down") (world st1)
              Hc eq_refl)
    as (st' & Hrun & _ & Hwrites & Hends).
  exists st1, st'. split; [exact Hc|]. split; [exact Hrun|].
  split; [exact Hwrites | exact Hends].
Defined.

Lemma other_write_error_aborts_witness :
  exists data previous_candle' st3 st4,
    reaches_write "1m" chunk_0_2 ∅ Scripted.run_full
    = Some (data, previous_candle', st3)
    /\ write_raises data st3 (OtherError "disk full")
    /\ OtherError "disk full" <> BcolzMinuteOverlappingData
    /\ ingest_chunks "1m" [chunk_0_2; mkChunk (5 * minute) 2] ∅ Scripted.run_full
       = Some (Raises (OtherError "disk full"), st4).
Proof.
  assert (Hr : exists data previous_candle' st3,
             reaches_write "1m" chunk_0_2 ∅ Scripted.run_full
             = Some (data, previous_candle', st3)
             /\ write_raises data st3 (OtherError "disk full")).
  { eexists _, _, _. split; [reflexivity|].
    right. exists tt. split; reflexivity. }
  destruct Hr as (data & previous_candle' & st3 & Hr & Hw).
  assert (Hne : OtherError "disk full" <> BcolzMinuteOverlappingData)
    by discriminate.
  destruct (other_write_error_aborts "1m" chunk_0_2 [mkChunk (5 * minute) 2] ∅
              previous_candle' Scripted.run_full st3 data _ Hr Hw Hne)
    as (_ & st4 & Hrun).
  exists data, previous_candle', st3, st4.
  split; [exact Hr|]. split; [exact Hw|]. split; [exact Hne | exact Hrun].
Defined.

Lemma ingest_unsupported_frequency_witness :
  supported (data_frequency (self run_hourly)) = false
  /\ exists st',
      ingest 5 run_hourly
      = Some (Raises (ValueError "frequency not supported"), st')
      /\ calls (trace st') = [].
Proof.
  assert (H : supported (data_frequency (self run_hourly)) = false)
    by reflexivity.
  split; [exact H|].
  eexists. split; [exact (ingest_unsupported_frequency 5 run_hourly H)|].
  reflexivity.
Defined.

Lemma init_gives_a_plannable_bundle_witness :
  exists b : @ExchangeBundle list_store,
    @init TwoAssets.exchange list_store (100 * minute) "minute" None None
      (-5) (200 * minute) = Returns b
    /\ start b < end_ b
    /\ -5 <= start b
    /\ end_ b <= 100 * minute.
Proof.
  assert (Hb : exists b : @ExchangeBundle list_store,
             @init TwoAssets.exchange list_store (100 * minute) "minute"
               None None (-5) (200 * minute) = Returns b)
    by (eexists; reflexivity).
  destruct Hb as (b & Hb).
  destruct (@init_gives_a_plannable_bundle TwoAssets.exchange list_store
              _ _ _ _ _ _ b Hb)
    as (H1 & H2 & H3 & _).
  exists b. split; [exact Hb|]. split; [exact H1|]. split; [exact H2|exact H3].
Defined.

End RunExamples.
